(** * pipweline.py: the hospital-discharge loading pipeline

    A shallow embedding of [src/pipweline.py] and the properties of its
    components: the Argument Reader ([parse_arguments]), the Year Extractor
    ([extract_year_from_path]), the Existence Checker
    ([data_already_exists]), the Loader ([load_data]), the Preprocessor
    ([preprocess_data]), the Persister ([save_to_database]), the Validator
    ([validate_data]) and the script body ([main]).

    Python values are modelled as follows.
    - [str] is [string]: a sequence of 8-bit characters (the CSV is read as
      Latin-1, whose code points are exactly the 8-bit characters).
    - [int] is [Z]; [float] is the kernel's binary64 [float], so
      [num_columns * threshold] rounds as it does in Python.
    - an exception is a constructor of [exn]; a call that may raise returns
      a [result].
    - the script's effects (console, file reads, database statements) are
      threaded through a state-and-error monad over [World]. *)

From Stdlib Require Import ZArith Floats Ascii.
From stdpp Require Import gmap strings list fin_maps.

Open Scope Z_scope.

(** ** Exceptions and results *)

Inductive exn :=
  | OperationalError            (* sqlalchemy.exc.OperationalError *)
  | OtherDatabaseError          (* any other sqlalchemy / DB-API error *)
  | KeyError (key : string)
  | ValueError
  | OverflowError
  | FileNotFoundError
  | SystemExit (code : Z).

Inductive result (A : Type) :=
  | Ok (a : A)
  | Raise (e : exn).
Arguments Ok {A} a.
Arguments Raise {A} e.

Definition result_bind {A B} (r : result A) (k : A → result B) : result B :=
  match r with
  | Ok a => k a
  | Raise e => Raise e
  end.

Notation "x ←? r ; k" := (result_bind r (λ x, k))
  (at level 20, r at level 100, k at level 200, right associativity,
   format "x  ←?  r ;  '/' k") : stdpp_scope.

(** ** Python string operations used by the script *)

(** [s.split(c)] for a one-character separator: every occurrence of [c]
    separates two (possibly empty) fields, so the result is never empty. *)
Fixpoint py_split (c : ascii) (s : string) : list string :=
  match s with
  | "" => [""]
  | String a s' =>
      if decide (a = c) then "" :: py_split c s'
      else match py_split c s' with
           | field :: fields => String a field :: fields
           | [] => [String a ""]
           end
  end.

Fixpoint drop_chars (n : nat) (s : string) : string :=
  match n, s with
  | O, _ => s
  | S n', String _ s' => drop_chars n' s'
  | S _, "" => ""
  end.

(** [s[-k:]] for [k > 0]: the start index [len(s) - k] is clipped at 0. *)
Definition py_suffix (k : nat) (s : string) : string :=
  drop_chars (String.length s - k) s.

(** [l[-1]] and [l[0]]; both raise [IndexError] on an empty list, which
    [py_split] never returns (lemma [py_split_nonempty]), so the embedding
    of [extract_year_from_path] falls back on the empty string there. *)
Definition py_last (l : list string) : string := default "" (last l).
Definition py_first (l : list string) : string := default "" (head l).

(** ** Year Extractor (pipweline.py, lines 38-42) *)

Definition extract_year_from_path (file_path : string) : string :=
  py_suffix 4 (py_first (py_split "." (py_last (py_split "/" file_path)))).

(** The Year Extractor as section 4.2 of the specification words it: the
    final path segment, then the substring before the first dot, then the
    last four characters. *)
Fixpoint has_char (c : ascii) (s : string) : bool :=
  match s with
  | "" => false
  | String a s' => if decide (a = c) then true else has_char c s'
  end.

(** What follows the last [c] of [s]; all of [s] when it has no [c]. *)
Fixpoint after_last (c : ascii) (s : string) : string :=
  match s with
  | "" => ""
  | String a s' =>
      if has_char c s' then after_last c s'
      else if decide (a = c) then s' else s
  end.
Definition final_segment (path : string) : string := after_last "/" path.

Fixpoint before_first (c : ascii) (s : string) : string :=
  match s with
  | "" => ""
  | String a s' => if decide (a = c) then "" else String a (before_first c s')
  end.

(** The last [k] characters of [s]; all of [s] when it is shorter. *)
Fixpoint last_chars (k : nat) (s : string) : string :=
  match s with
  | "" => ""
  | String _ s' => if (k <=? String.length s')%nat then last_chars k s' else s
  end.

Definition year_by_spec (path : string) : string :=
  last_chars 4 (before_first "." (final_segment path)).

(** ** Floating-point arithmetic of [int(num_columns * threshold)] *)

(** [float(n)] for a Python [int]: the nearest binary64 value (ties to
    even); an integer too large for the format becomes [infinity] here, and
    every later step fails on it as Python's [OverflowError] does. *)
Definition float_of_Z (z : Z) : float :=
  SF2Prim (binary_normalize prec emax z 0 false).

(** The magnitude of a finite float [m * 2^e], rounded towards zero or
    towards minus infinity. *)
Definition magnitude_down (m : positive) (e : Z) : Z :=
  if 0 <=? e then Z.pos m * 2 ^ e else Z.pos m / 2 ^ (- e).
Definition magnitude_up (m : positive) (e : Z) : Z :=
  if 0 <=? e then Z.pos m * 2 ^ e else - ((- Z.pos m) / 2 ^ (- e)).

(** [int(x)] on a float truncates towards zero; it raises [ValueError] on
    NaN and [OverflowError] on an infinity. *)
Definition int_of_float (x : float) : result Z :=
  match Prim2SF x with
  | S754_zero _ => Ok 0
  | S754_finite false m e => Ok (magnitude_down m e)
  | S754_finite true m e => Ok (- magnitude_down m e)
  | S754_infinity _ => Raise OverflowError
  | S754_nan => Raise ValueError
  end.

(** [math.floor(x)], the rounding the specification names. *)
Definition floor_of_float (x : float) : result Z :=
  match Prim2SF x with
  | S754_zero _ => Ok 0
  | S754_finite false m e => Ok (magnitude_down m e)
  | S754_finite true m e => Ok (- magnitude_up m e)
  | S754_infinity _ => Raise OverflowError
  | S754_nan => Raise ValueError
  end.

(** The sign bit of a float is clear (this includes [+0.0]) or the float is
    a zero. *)
Definition float_nonneg (x : float) : bool :=
  match Prim2SF x with
  | S754_zero _ => true
  | S754_finite s _ _ => negb s
  | S754_infinity s => negb s
  | S754_nan => false
  end.

(** ** Tabular data *)

(** A cell of a [DataFrame] or of a database table: a string, an integer or
    a float (a missing value is the float NaN). *)
Inductive cell :=
  | CStr (s : string)
  | CInt (z : Z)
  | CFloat (x : float).

Record DataFrame := {
  columns : list string;
  rows : list (list cell)
}.

(** [x == '*'] on one cell. *)
Definition is_star (c : cell) : bool :=
  match c with
  | CStr s => bool_decide (s = "*")
  | _ => false
  end.

(** [(x == '*').sum()] over the cells of a row. *)
Definition count_stars (row : list cell) : Z :=
  Z.of_nat (length (filter (λ c, is_star c = true) row)).

(** ** What the model leaves to the libraries

    Three behaviours of pandas and SQLite are not fixed by the script and
    are taken as parameters; every property below holds whatever they are.
    - [astype_int] is the element conversion of [Series.astype(int)].
    - [beyond] answers the statements that fall outside the fragment of SQL
      modelled in [sqlite_execute].
    - [group_order] is the order in which SQLite returns the groups of a
      [GROUP BY], which SQL leaves open. *)
Record Libraries := {
  astype_int : cell → result Z;
  beyond : gmap string DataFrame → string → result (list (list cell));
  group_order : list (Z * nat) → list (Z * nat);
  group_order_perm : ∀ l, group_order l ≡ₚ l
}.

(** ** Preprocessor (pipweline.py, lines 62-103) *)

Definition new_column_names : list string :=
  ["PERTENENCIA_ESTABLECIMIENTO_SALUD"; "SEXO"; "GRUPO_EDAD"; "ETNIA";
   "GLOSA_PAIS_ORIGEN"; "COMUNA_RESIDENCIA"; "GLOSA_COMUNA_RESIDENCIA";
   "REGION_RESIDENCIA"; "GLOSA_REGION_RESIDENCIA"; "PREVISION";
   "GLOSA_PREVISION"; "ANO_EGRESO"; "DIAG1"; "DIAG2"; "DIAS_ESTADA";
   "CONDICION_EGRESO"; "INTERV_Q"; "PROCED"].

(** [int(num_columns * threshold)] (line 79). *)
Definition allowed_stars (num_columns : nat) (threshold : float) : result Z :=
  int_of_float (PrimFloat.mul (float_of_Z (Z.of_nat num_columns)) threshold).

(** The boolean mask of lines 82-83, applied to one row. *)
Definition keeps (allowed : Z) (row : list cell) : bool :=
  count_stars row <=? allowed.

(** [df[name].astype(int)] written back into one row: every cell under a
    column called [name] is converted; the other cells are left alone. *)
Fixpoint coerce_row (L : Libraries) (name : string) (cols : list string)
    (row : list cell) : result (list cell) :=
  match row, cols with
  | x :: row', c :: cols' =>
      x' ←? (if decide (c = name) then z ←? astype_int L x; Ok (CInt z)
             else Ok x);
      rest ←? coerce_row L name cols' row';
      Ok (x' :: rest)
  | _, _ => Ok row
  end.

Fixpoint coerce_rows (L : Libraries) (name : string) (cols : list string)
    (rs : list (list cell)) : result (list (list cell)) :=
  match rs with
  | [] => Ok []
  | r :: rs' =>
      r' ←? coerce_row L name cols r;
      rest ←? coerce_rows L name cols rs';
      Ok (r' :: rest)
  end.

(** [df.loc[:, name] = df[name].astype(int)] (lines 86-90): [df[name]]
    raises [KeyError] when no column is called [name]. *)
Definition astype_column (L : Libraries) (name : string) (df : DataFrame)
    : result DataFrame :=
  if decide (name ∈ columns df) then
    rs ←? coerce_rows L name (columns df) (rows df);
    Ok {| columns := columns df; rows := rs |}
  else Raise (KeyError name).

(** [dict(zip(old, new))]: a later pair overrides an earlier one with the
    same key. *)
Definition py_dict (pairs : list (string * string)) : gmap string string :=
  foldl (λ m kv, <[kv.1 := kv.2]> m) ∅ pairs.

(** [df.rename(columns=mapping)]: each label found in the mapping is
    replaced; the others stay. *)
Definition rename (mapping : gmap string string) (df : DataFrame) : DataFrame :=
  {| columns := (λ c, default c (mapping !! c)) <$> columns df;
     rows := rows df |}.

Definition preprocess_data (L : Libraries) (df : DataFrame) (threshold : float)
    : result DataFrame :=
  let num_columns := length (columns df) in
  allowed ←? allowed_stars num_columns threshold;
  let cleaned_df :=
    {| columns := columns df;
       rows := filter (λ x, keeps allowed x = true) (rows df) |} in
  cleaned_df ←? astype_column L "COMUNA_RESIDENCIA" cleaned_df;
  cleaned_df ←? astype_column L "REGION_RESIDENCIA" cleaned_df;
  cleaned_df ←? astype_column L "ANO_EGRESO" cleaned_df;
  let old_column_names := columns cleaned_df in
  let column_mapping := py_dict (zip old_column_names new_column_names) in
  Ok (rename column_mapping cleaned_df).

(** The columns converted by lines 86-90, and one row before and after the
    three conversions. *)
Definition coerced_columns : list string :=
  ["COMUNA_RESIDENCIA"; "REGION_RESIDENCIA"; "ANO_EGRESO"].

Definition coerce_three (L : Libraries) (cols : list string) (r : list cell)
    : result (list cell) :=
  r1 ←? coerce_row L "COMUNA_RESIDENCIA" cols r;
  r2 ←? coerce_row L "REGION_RESIDENCIA" cols r1;
  coerce_row L "ANO_EGRESO" cols r2.

(** The default of the [threshold] parameter. *)
Definition default_threshold : float := 0.5%float.

(** ** The SQLite fragment the script relies on

    The database is a finite map from (case-folded) table names to tables.
    The model covers the two statements the script issues, for a table name
    that is a plain identifier, a [WHERE] operand that is a short decimal
    literal or a plain identifier, and a table whose compared cells are
    integers; every other statement is answered by [beyond]. *)

Definition is_digit (a : ascii) : bool :=
  let n := nat_of_ascii a in (48 <=? n)%nat && (n <=? 57)%nat.
Definition is_upper (a : ascii) : bool :=
  let n := nat_of_ascii a in (65 <=? n)%nat && (n <=? 90)%nat.
Definition is_lower (a : ascii) : bool :=
  let n := nat_of_ascii a in (97 <=? n)%nat && (n <=? 122)%nat.
Definition is_ident_start (a : ascii) : bool :=
  is_upper a || is_lower a || bool_decide (a = "_"%char).
Definition is_ident_char (a : ascii) : bool :=
  is_ident_start a || is_digit a.

Fixpoint string_forall (p : ascii → bool) (s : string) : bool :=
  match s with
  | "" => true
  | String a s' => p a && string_forall p s'
  end.

(** SQLite compares identifiers and keywords without regard to the case of
    ASCII letters. *)
Definition fold_char (a : ascii) : ascii :=
  if is_upper a then ascii_of_nat (nat_of_ascii a + 32) else a.
Fixpoint sql_fold (s : string) : string :=
  match s with
  | "" => ""
  | String a s' => String (fold_char a) (sql_fold s')
  end.

(** The keywords of SQLite, and the names it treats specially where a
    column is expected; a bare word among them is not taken as a plain
    identifier by the model. *)
Definition reserved_words : list string :=
  ["abort"; "action"; "add"; "after"; "all"; "alter"; "always"; "analyze";
   "and"; "as"; "asc"; "attach"; "autoincrement"; "before"; "begin";
   "between"; "by"; "cascade"; "case"; "cast"; "check"; "collate"; "column";
   "commit"; "conflict"; "constraint"; "create"; "cross"; "current";
   "current_date"; "current_time"; "current_timestamp"; "database";
   "default"; "deferrable"; "deferred"; "delete"; "desc"; "detach";
   "distinct"; "do"; "drop"; "each"; "else"; "end"; "escape"; "except";
   "exclude"; "exclusive"; "exists"; "explain"; "fail"; "filter"; "first";
   "following"; "for"; "foreign"; "from"; "full"; "generated"; "glob";
   "group"; "groups"; "having"; "if"; "ignore"; "immediate"; "in"; "index";
   "indexed"; "initially"; "inner"; "insert"; "instead"; "intersect";
   "into"; "is"; "isnull"; "join"; "key"; "last"; "left"; "like"; "limit";
   "match"; "materialized"; "natural"; "no"; "not"; "nothing"; "notnull";
   "null"; "nulls"; "of"; "offset"; "on"; "or"; "order"; "others"; "outer";
   "over"; "partition"; "plan"; "pragma"; "preceding"; "primary"; "query";
   "raise"; "range"; "recursive"; "references"; "regexp"; "reindex";
   "release"; "rename"; "replace"; "restrict"; "returning"; "right";
   "rollback"; "row"; "rows"; "savepoint"; "select"; "set"; "table"; "temp";
   "temporary"; "then"; "ties"; "to"; "transaction"; "trigger"; "unbounded";
   "union"; "unique"; "update"; "using"; "vacuum"; "values"; "view";
   "virtual"; "when"; "where"; "window"; "with"; "without";
   "true"; "false"; "rowid"; "oid"; "_rowid_"].

Definition plain_name (s : string) : bool :=
  match s with
  | "" => false
  | String a s' =>
      is_ident_start a && string_forall is_ident_char s'
      && bool_decide (sql_fold s ∉ reserved_words)
  end.

Fixpoint decimal_go (acc : Z) (s : string) : option Z :=
  match s with
  | "" => Some acc
  | String a s' =>
      match Ascii.is_nat a with
      | Some d => decimal_go (10 * acc + Z.of_nat d) s'
      | None => None
      end
  end.
(** The value of a non-empty string of decimal digits. *)
Definition decimal_value (s : string) : option Z :=
  match s with
  | "" => None
  | _ => decimal_go 0 s
  end.

(** What the text interpolated after [ANO_EGRESO=] denotes. *)
Inductive operand :=
  | OpInteger (n : Z)
  | OpName (name : string)
  | OpOther.

Definition classify_operand (text : string) : operand :=
  match decimal_value text with
  | Some n => if (String.length text <=? 18)%nat then OpInteger n else OpOther
  | None => if plain_name text then OpName text else OpOther
  end.

(** The statements recognised in the text passed to [connection.execute]. *)
Inductive statement :=
  | SelectWhereYear (table_name year_text : string)
  | CountByYear (table_name : string).

Fixpoint strip_prefix (p s : string) : option string :=
  match p, s with
  | "", _ => Some s
  | String a p', String b s' => if decide (a = b) then strip_prefix p' s' else None
  | String _ _, "" => None
  end.

(** The longest prefix of identifier characters, and what follows it. *)
Fixpoint span_name (s : string) : string * string :=
  match s with
  | "" => ("", "")
  | String a s' =>
      if is_ident_char a
      then let '(name, rest) := span_name s' in (String a name, rest)
      else ("", s)
  end.

Definition parse_statement (q : string) : option statement :=
  match strip_prefix "SELECT * FROM " q with
  | Some r =>
      let '(t, r') := span_name r in
      match strip_prefix " WHERE ANO_EGRESO=" r' with
      | Some y => Some (SelectWhereYear t y)
      | None => None
      end
  | None =>
      match strip_prefix "SELECT ANO_EGRESO, count(*) FROM " q with
      | Some r =>
          let '(t, r') := span_name r in
          if decide (r' = " GROUP BY ANO_EGRESO") then Some (CountByYear t)
          else None
      | None => None
      end
  end.

(** The position of the column a name refers to. *)
Definition find_column (name : string) (cols : list string) : option nat :=
  fst <$> list_find (λ c, sql_fold c = sql_fold name) cols.

(** The integer held by a row in column [j], if it holds one. *)
Definition year_of (j : nat) (row : list cell) : option Z :=
  match row !! j with
  | Some (CInt z) => Some z
  | _ => None
  end.

Definition int_valued (j : nat) (tbl : DataFrame) : bool :=
  forallb (λ r, bool_decide (is_Some (year_of j r))) (rows tbl).

(** [SELECT * FROM t WHERE ANO_EGRESO=<operand>] on an existing table. *)
Definition select_where_year (L : Libraries) (d : gmap string DataFrame)
    (q : string) (tbl : DataFrame) (op : operand) : result (list (list cell)) :=
  match find_column "ANO_EGRESO" (columns tbl) with
  | None => Raise OperationalError                (* no such column *)
  | Some j =>
      match op with
      | OpInteger n =>
          if int_valued j tbl
          then Ok (filter (λ r, year_of j r = Some n) (rows tbl))
          else beyond L d q
      | OpName c =>
          match find_column c (columns tbl) with
          | None => Raise OperationalError        (* no such column *)
          | Some i =>
              if int_valued j tbl && int_valued i tbl
              then Ok (filter (λ r, year_of j r = year_of i r) (rows tbl))
              else beyond L d q
          end
      | OpOther => beyond L d q
      end
  end.

(** Counting the occurrences of each key, in order of first occurrence. *)
Fixpoint bump (k : Z) (acc : list (Z * nat)) : list (Z * nat) :=
  match acc with
  | [] => [(k, 1%nat)]
  | (k', c) :: acc' =>
      if decide (k = k') then (k', S c) :: acc' else (k', c) :: bump k acc'
  end.
Definition count_groups (ks : list Z) : list (Z * nat) :=
  foldl (λ acc k, bump k acc) [] ks.

Definition group_row (g : Z * nat) : list cell := [CInt g.1; CInt (Z.of_nat g.2)].

(** The per-year count statement of the Validator ([GROUP BY ANO_EGRESO])
    on an existing table. *)
Definition count_by_year (L : Libraries) (d : gmap string DataFrame)
    (q : string) (tbl : DataFrame) : result (list (list cell)) :=
  match find_column "ANO_EGRESO" (columns tbl) with
  | None => Raise OperationalError                (* no such column *)
  | Some j =>
      match mapM (year_of j) (rows tbl) with
      | Some ks => Ok (group_row <$> group_order L (count_groups ks))
      | None => beyond L d q
      end
  end.

(** [connection.execute(text(q))] followed by fetching every row. *)
Definition sqlite_execute (L : Libraries) (d : gmap string DataFrame)
    (q : string) : result (list (list cell)) :=
  match parse_statement q with
  | Some (SelectWhereYear t y) =>
      match plain_name t, classify_operand y with
      | false, _ | _, OpOther => beyond L d q
      | true, op =>
          match d !! sql_fold t with
          | None => Raise OperationalError        (* no such table *)
          | Some tbl => select_where_year L d q tbl op
          end
      end
  | Some (CountByYear t) =>
      if plain_name t then
        match d !! sql_fold t with
        | None => Raise OperationalError          (* no such table *)
        | Some tbl => count_by_year L d q tbl
        end
      else beyond L d q
  | None => beyond L d q
  end.

(** The value SQLite stores where an inserted row has no value (NULL, read
    back by pandas as NaN). *)
Definition sql_null : cell := CFloat nan.

(** A row of [df] laid out under the columns of an existing table. *)
Definition align_row (df_cols tbl_cols : list string) (row : list cell)
    : list cell :=
  (λ c, match find_column c df_cols with
        | Some i => default sql_null (row !! i)
        | None => sql_null
        end) <$> tbl_cols.

(** [df.to_sql(name, con, if_exists='append', index=False)]: the table is
    created from the frame when it is missing; otherwise the rows are
    inserted under the frame's column names, which the table must have. *)
Definition to_sql (df : DataFrame) (name : string) (d : gmap string DataFrame)
    : result (gmap string DataFrame) :=
  let key := sql_fold name in
  if bool_decide (columns df = []) || negb (bool_decide (NoDup (sql_fold <$> columns df)))
  then Raise OperationalError
  else match d !! key with
       | None => Ok (<[key := df]> d)
       | Some tbl =>
           if forallb (λ c, bool_decide (is_Some (find_column c (columns tbl))))
                (columns df)
           then Ok (<[key := {| columns := columns tbl;
                                rows := rows tbl ++
                                  (align_row (columns df) (columns tbl) <$> rows df) |}]> d)
           else Raise OperationalError
       end.

(** ** The process: console, files and database *)

Inductive event :=
  | Print (line : string)                 (* print(str) *)
  | PrintRow (row : list cell)            (* print(row) of a result row *)
  | ReadCsv (path : string)               (* pd.read_csv(path, ...) *)
  | Execute (query : string)              (* connection.execute(text(query)) *)
  | ToSql (table_name : string) (df : DataFrame).   (* df.to_sql(...) *)

(** [fs] maps a path to the frame [pd.read_csv] builds from the file there
    (a path outside the map cannot be read); [trace] lists the events of
    the run, oldest first. *)
Record World := {
  fs : gmap string DataFrame;
  db : gmap string DataFrame;
  trace : list event
}.

Definition M (A : Type) : Type := World → result A * World.

Definition ret {A} (a : A) : M A := λ w, (Ok a, w).
Definition raise {A} (e : exn) : M A := λ w, (Raise e, w).
Definition bind {A B} (m : M A) (k : A → M B) : M B :=
  λ w, match m w with
       | (Ok a, w') => k a w'
       | (Raise e, w') => (Raise e, w')
       end.

Notation "x ←! m ; k" := (bind m (λ x, k))
  (at level 20, m at level 100, k at level 200, right associativity,
   format "x  ←!  m ;  '/' k") : stdpp_scope.
Notation "m ;! k" := (bind m (λ _, k))
  (at level 100, k at level 200, right associativity,
   format "m ;!  '/' k") : stdpp_scope.

Definition log (e : event) : M unit :=
  λ w, (Ok tt, {| fs := fs w; db := db w; trace := trace w ++ [e] |}).
Definition print (line : string) : M unit := log (Print line).

Definition get_db : M (gmap string DataFrame) := λ w, (Ok (db w), w).
Definition put_db (d : gmap string DataFrame) : M unit :=
  λ w, (Ok tt, {| fs := fs w; db := d; trace := trace w |}).
Definition lift {A} (r : result A) : M A := λ w, (r, w).

(** [for x in xs: body(x)] *)
Fixpoint for_each {A} (xs : list A) (body : A → M unit) : M unit :=
  match xs with
  | [] => ret tt
  | x :: xs' => body x ;! for_each xs' body
  end.

(** ** getopt.getopt of the Python standard library *)

(** [short_has_arg]: [None] when the option letter is not recognised. *)
Fixpoint short_has_arg (opt : ascii) (shortopts : string) : option bool :=
  match shortopts with
  | "" => None
  | String a rest =>
      if bool_decide (opt = a) && negb (bool_decide (a = ":"%char))
      then Some (match rest with String ":" _ => true | _ => false end)
      else short_has_arg opt rest
  end.

(** The outcome of handling one argument: the options so far and whether
    the following argument was consumed as the option's value, or the
    message of a [GetoptError]. *)
Definition getopt_step : Type := string + (list (string * string) * bool).

Fixpoint do_shorts (opts : list (string * string)) (optstring shortopts : string)
    (args : list string) : getopt_step :=
  match optstring with
  | "" => inr (opts, false)
  | String opt optstring' =>
      match short_has_arg opt shortopts with
      | None => inl ("option -" +:+ String opt "" +:+ " not recognized")
      | Some true =>
          match optstring', args with
          | "", [] => inl ("option -" +:+ String opt "" +:+ " requires argument")
          | "", optarg :: _ => inr (opts ++ [("-" +:+ String opt "", optarg)], true)
          | optarg, _ => inr (opts ++ [("-" +:+ String opt "", optarg)], false)
          end
      | Some false =>
          do_shorts (opts ++ [("-" +:+ String opt "", "")]) optstring' shortopts args
      end
  end.

(** [opt.index('=')] and the two slices around it. *)
Fixpoint split_at_eq (s : string) : string * option string :=
  match s with
  | "" => ("", None)
  | String a s' =>
      if bool_decide (a = "="%char) then ("", Some s')
      else let '(l, r) := split_at_eq s' in (String a l, r)
  end.

Fixpoint ends_with_eq (s : string) : bool :=
  match s with
  | "" => false
  | String a "" => bool_decide (a = "="%char)
  | String _ s' => ends_with_eq s'
  end.
Fixpoint drop_last_char (s : string) : string :=
  match s with
  | "" => ""
  | String _ "" => ""
  | String a s' => String a (drop_last_char s')
  end.

Definition long_has_args (opt : string) (longopts : list string)
    : string + (bool * string) :=
  let possibilities := filter (λ o, String.prefix opt o = true) longopts in
  match possibilities with
  | [] => inl ("option --" +:+ opt +:+ " not recognized")
  | _ =>
      if bool_decide (opt ∈ possibilities) then inr (false, opt)
      else if bool_decide (opt +:+ "=" ∈ possibilities) then inr (true, opt)
      else match possibilities with
           | [unique_match] =>
               if ends_with_eq unique_match
               then inr (true, drop_last_char unique_match)
               else inr (false, unique_match)
           | _ => inl ("option --" +:+ opt +:+ " not a unique prefix")
           end
  end.

Definition do_longs (opts : list (string * string)) (opt : string)
    (longopts : list string) (args : list string) : getopt_step :=
  let '(opt, optarg) := split_at_eq opt in
  match long_has_args opt longopts with
  | inl msg => inl msg
  | inr (true, opt) =>
      match optarg, args with
      | Some v, _ => inr (opts ++ [("--" +:+ opt, v)], false)
      | None, [] => inl ("option --" +:+ opt +:+ " requires argument")
      | None, v :: _ => inr (opts ++ [("--" +:+ opt, v)], true)
      end
  | inr (false, opt) =>
      match optarg with
      | Some _ => inl ("option --" +:+ opt +:+ " must not have an argument")
      | None => inr (opts ++ [("--" +:+ opt, "")], false)
      end
  end.

(** The loop of [getopt.getopt]: options are read while the next argument
    starts with a dash and is not a lone dash; a double dash ends them. *)
Fixpoint getopt_loop (opts : list (string * string)) (args : list string)
    (shortopts : string) (longopts : list string)
    : string + (list (string * string) * list string) :=
  match args with
  | [] => inr (opts, [])
  | arg :: rest =>
      match arg with
      | String "-" "" => inr (opts, args)
      | String "-" (String "-" "") => inr (opts, rest)
      | String "-" body =>
          let step :=
            match body with
            | String "-" long => do_longs opts long longopts rest
            | _ => do_shorts opts body shortopts rest
            end in
          match step with
          | inl msg => inl msg
          | inr (opts', false) => getopt_loop opts' rest shortopts longopts
          | inr (opts', true) =>
              match rest with
              | _ :: rest' => getopt_loop opts' rest' shortopts longopts
              | [] => inr (opts', [])
              end
          end
      | _ => inr (opts, args)
      end
  end.

Definition getopt (args : list string) (shortopts : string)
    (longopts : list string) : string + (list (string * string) * list string) :=
  getopt_loop [] args shortopts longopts.

(** ** Argument Reader (pipweline.py, lines 9-35) *)

Definition parse_arguments (sys_argv : list string) : M string :=
  let unixOptions := "f:" in
  let gnuOptions := ["file="] in
  let fullCmdArguments := sys_argv in
  let argumentList := drop 1 fullCmdArguments in
  match getopt argumentList unixOptions gnuOptions with
  | inl err => print err ;! raise (SystemExit 2)
  | inr (arguments, values) =>
      ret (foldl (λ file_path '(currentArgument, currentValue),
                   if bool_decide (currentArgument ∈ ["-f"; "--file"])
                   then currentValue else file_path)
                 "" arguments)
  end.

(** ** Database Gateway (pipweline.py, lines 106-110)

    The engine is lazy: creating it prints the confirmation and touches
    nothing. It is modelled by its connection string; the database it
    designates is the [db] component of the world. *)
Definition create_db_engine (db_name : string) : M string :=
  let connection_string := "sqlite:///" +:+ db_name in
  print ("[INFO]: Connection Checked: " +:+ connection_string) ;!
  ret connection_string.

(** ** Existence Checker (pipweline.py, lines 45-54) *)

(** The text of line 49: the table name and the year are interpolated as
    they are. *)
Definition existence_query (table_name year : string) : string :=
  "SELECT * FROM " +:+ table_name +:+ " WHERE ANO_EGRESO=" +:+ year.

Definition data_already_exists (L : Libraries) (engine table_name year : string)
    : M bool :=
  let query := existence_query table_name year in
  log (Execute query) ;!
  d ←! get_db;
  match sqlite_execute L d query with
  | Ok result =>
      (* result.fetchone() is not None *)
      ret (match result with [] => false | _ :: _ => true end)
  | Raise OperationalError => ret false
  | Raise e => raise e
  end.

(** ** Loader (pipweline.py, lines 57-59) *)

Definition load_data (file_path : string) : M DataFrame :=
  log (ReadCsv file_path) ;!
  λ w, match fs w !! file_path with
       | Some df => (Ok df, w)
       | None => (Raise FileNotFoundError, w)
       end.

(** ** Persister (pipweline.py, lines 113-114) *)

Definition save_to_database (df : DataFrame) (engine table_name : string)
    : M unit :=
  log (ToSql table_name df) ;!
  d ←! get_db;
  d' ←! lift (to_sql df table_name d);
  put_db d'.

(** ** Validator (pipweline.py, lines 117-126) *)

(** The text of lines 120-121. *)
Definition report_query (table_name : string) : string :=
  "SELECT ANO_EGRESO, count(*) FROM " +:+ table_name +:+ " GROUP BY ANO_EGRESO".

Definition validate_data (L : Libraries) (engine table_name : string) : M unit :=
  let query := report_query table_name in
  log (Execute query) ;!
  d ←! get_db;
  rows ←! lift (sqlite_execute L d query);
  for_each (take 100 rows) (λ row, log (PrintRow row)).

(** ** The script body (pipweline.py, lines 129-161) *)

Definition already_exists_message : string :=
  "The data already exists in the database. No se realiz" +:+
  String "243" (" ninguna acci" +:+ String "243" "n.").

Definition main (L : Libraries) (sys_argv : list string) : M unit :=
  file_path ←! parse_arguments sys_argv;
  let table_name := "egresos_pacientes" in
  engine ←! create_db_engine "database/ministerio_de_salud_chile.db";
  print "[INFO]: Database connection" ;!
  (if bool_decide (file_path ≠ "") then
     print ("File Path: " +:+ file_path) ;!
     let year := extract_year_from_path file_path in
     raw_data ←! load_data file_path;
     print "[INFO]: Load data as a pandas dataframe" ;!
     found ←! data_already_exists L engine table_name year;
     if found then print already_exists_message
     else
       raw_data ←! lift (preprocess_data L raw_data default_threshold);
       print "[INFO]: Preprocess data" ;!
       save_to_database raw_data engine table_name ;!
       print "[INFO]: Loads data into DB"
   else print "No path was provided") ;!
  validate_data L engine table_name.

(** The exit status of the interpreter: 0 when the script runs to its end,
    the code of a [sys.exit], and 1 for an uncaught exception. *)
Definition exit_status (r : result unit) : Z :=
  match r with
  | Ok _ => 0
  | Raise (SystemExit code) => code
  | Raise _ => 1
  end.

(** One run of the script, from an empty console. *)
Definition run (L : Libraries) (sys_argv : list string)
    (files database : gmap string DataFrame) : Z * World :=
  let '(r, w) := main L sys_argv {| fs := files; db := database; trace := [] |} in
  (exit_status r, w).

(** ** A reference instance of the library parameters

    Used to run the model on concrete inputs: [int(x)] on a cell accepts an
    integer, a finite float and a string of decimal digits with an optional
    sign; statements outside the fragment fail; groups come in order of
    first occurrence. *)
Definition py_int (c : cell) : result Z :=
  match c with
  | CInt z => Ok z
  | CFloat x => int_of_float x
  | CStr (String "-" s) =>
      match decimal_value s with Some n => Ok (- n) | None => Raise ValueError end
  | CStr (String "+" s) =>
      match decimal_value s with Some n => Ok n | None => Raise ValueError end
  | CStr s =>
      match decimal_value s with Some n => Ok n | None => Raise ValueError end
  end.

Definition reference_libraries : Libraries :=
  {| astype_int := py_int;
     beyond := λ _ _, Raise OtherDatabaseError;
     group_order := λ l, l;
     group_order_perm := λ l, reflexivity l |}.

(** ** Sample inputs *)

(** A frame with the three converted columns only, and one clean row. *)
Definition three_columns : DataFrame :=
  {| columns := ["COMUNA_RESIDENCIA"; "REGION_RESIDENCIA"; "ANO_EGRESO"];
     rows := [[CStr "13101"; CStr "13"; CStr "2019"]] |}.

(** A frame with the first seventeen canonical columns, in order. *)
Definition seventeen_columns : DataFrame :=
  {| columns := take 17 new_column_names;
     rows := [[CStr "Publico"; CStr "HOMBRE"; CStr "20-29"; CStr "NINGUNA";
               CStr "CHILE"; CStr "13101"; CStr "Santiago"; CStr "13";
               CStr "Metropolitana"; CStr "1"; CStr "FONASA"; CStr "2019";
               CStr "A09"; CStr "*"; CInt 3; CInt 1; CInt 2]] |}.

(** A frame in the canonical layout of eighteen columns: one clean row of
    2019 and one row with ten placeholder cells. *)
Definition eighteen_columns : DataFrame :=
  {| columns := new_column_names;
     rows := [[CStr "Publico"; CStr "HOMBRE"; CStr "20-29"; CStr "NINGUNA";
               CStr "CHILE"; CStr "13101"; CStr "Santiago"; CStr "13";
               CStr "Metropolitana"; CStr "1"; CStr "FONASA"; CInt 2019;
               CStr "A09"; CStr "*"; CInt 3; CInt 1; CInt 2; CInt 1];
              [CStr "*"; CStr "*"; CStr "*"; CStr "*";
               CStr "*"; CStr "13101"; CStr "*"; CStr "13";
               CStr "*"; CStr "*"; CStr "*"; CInt 2019;
               CStr "A09"; CStr "*"; CInt 3; CInt 1; CInt 2; CStr "*"]] |}.

(** A destination table in the canonical layout holding one row of 2019
    whose SEXO cell is the number 2019 as well. *)
Definition table_2019 : DataFrame :=
  {| columns := new_column_names;
     rows := [[CStr "Publico"; CInt 2019; CStr "20-29"; CStr "NINGUNA";
               CStr "CHILE"; CInt 13101; CStr "Santiago"; CInt 13;
               CStr "Metropolitana"; CStr "1"; CStr "FONASA"; CInt 2019;
               CStr "A09"; CStr "*"; CInt 3; CInt 1; CInt 2; CInt 1]] |}.

Definition world_2019 : World :=
  {| fs := {[ "data/egresos_2019.csv" := eighteen_columns ]};
     db := {[ "egresos_pacientes" := table_2019 ]};
     trace := [] |}.

(** ** Notions used in the statements *)



(** The world after further events. *)
Definition logged (w : World) (evs : list event) : World :=
  {| fs := fs w; db := db w; trace := trace w ++ evs |}.

(** The constants of the script body, and the two lines every run prints
    first. *)
Definition engine_url : string := "sqlite:///database/ministerio_de_salud_chile.db".
Definition destination : string := "egresos_pacientes".
Definition prelude : list event :=
  [Print ("[INFO]: Connection Checked: " +:+ engine_url);
   Print "[INFO]: Database connection"].

(** The world in which a run starts. *)
Definition initial (files database : gmap string DataFrame) : World :=
  {| fs := files; db := database; trace := [] |}.

(** The command line of a load of the 2019 file, the frame the
    Preprocessor makes of it, and the world a first load into an empty
    database ends in. *)
Definition load_2019 : list string :=
  ["pipweline.py"; "-f"; "data/egresos_2019.csv"].

Definition preprocessed_2019 : DataFrame :=
  {| columns := new_column_names;
     rows := [[CStr "Publico"; CStr "HOMBRE"; CStr "20-29"; CStr "NINGUNA";
               CStr "CHILE"; CInt 13101; CStr "Santiago"; CInt 13;
               CStr "Metropolitana"; CStr "1"; CStr "FONASA"; CInt 2019;
               CStr "A09"; CStr "*"; CInt 3; CInt 1; CInt 2; CInt 1]] |}.


(** A float that is NaN or an infinity, and a float that is a zero. *)
Definition non_finite (x : float) : bool :=
  match Prim2SF x with
  | S754_nan | S754_infinity _ => true
  | _ => false
  end.
Definition is_zero_float (x : float) : bool :=
  match Prim2SF x with
  | S754_zero _ => true
  | _ => false
  end.

(** A frame that lacks the columns the Preprocessor converts. *)
Definition no_residence_columns : DataFrame :=
  {| columns := ["SEXO"; "ANO_EGRESO"];
     rows := [[CStr "HOMBRE"; CStr "2019"]] |}.

(** Database [d'] holds every table of [d], under the same columns and
    with the rows of [d] first, in their order. *)
Definition extended_by (d d' : gmap string DataFrame) : Prop :=
  ∀ name tbl, d !! name = Some tbl →
    ∃ tbl', d' !! name = Some tbl' ∧ columns tbl' = columns tbl ∧
            rows tbl `prefix_of` rows tbl'.


(** * Properties *)

(** ** Strings *)

Lemma append_cons a s t : String a s +:+ t = String a (s +:+ t).
Proof. reflexivity. Qed.

Lemma append_empty_l s : "" +:+ s = s.
Proof. reflexivity. Qed.

Lemma append_empty_r s : s +:+ "" = s.
Proof. induction s as [|a s IH]; [done|]. by rewrite append_cons, IH. Qed.

Lemma length_append s t :
  String.length (s +:+ t) = (String.length s + String.length t)%nat.
Proof. induction s as [|a s IH]; [done|]. rewrite append_cons. simpl. by rewrite IH. Qed.

Lemma has_char_append c s t : has_char c (s +:+ t) = has_char c s || has_char c t.
Proof.
  induction s as [|a s IH]; [done|].
  rewrite append_cons. simpl. by case_decide.
Qed.

(** ** Year Extractor *)

Lemma py_split_nonempty c s : py_split c s ≠ [].
Proof.
  destruct s as [|a s]; simpl; [done|].
  case_decide; [done|]. by destruct (py_split c s).
Qed.

Lemma py_split_no_sep c s : has_char c s = false → py_split c s = [s].
Proof.
  induction s as [|a s IH]; simpl; [done|].
  case_decide; [done|]. intros Hs. by rewrite (IH Hs).
Qed.

Lemma py_split_sep c s :
  has_char c s = true → ∃ f1 f2 fs, py_split c s = f1 :: f2 :: fs.
Proof.
  induction s as [|a s IH]; simpl; [done|].
  case_decide.
  - intros _. destruct (py_split c s) as [|f fs] eqn:E.
    + by apply py_split_nonempty in E.
    + eauto.
  - intros Hs. destruct (IH Hs) as (f1 & f2 & fs & ->). eauto.
Qed.

Lemma after_last_no_sep c s : has_char c s = false → after_last c s = s.
Proof.
  destruct s as [|a s]; simpl; [done|].
  case_decide; [done|]. by intros ->.
Qed.

Lemma py_last_split c s : py_last (py_split c s) = after_last c s.
Proof.
  unfold py_last. induction s as [|a s IH]; simpl; [done|].
  destruct (has_char c s) eqn:Hs.
  - destruct (py_split_sep c s Hs) as (f1 & f2 & fs & E).
    rewrite E in IH. rewrite E. case_decide.
    + by rewrite last_cons_cons.
    + by rewrite last_cons_cons in *.
  - rewrite (py_split_no_sep c s Hs), (after_last_no_sep c s Hs) in *.
    by case_decide.
Qed.

Lemma py_first_split c s : py_first (py_split c s) = before_first c s.
Proof.
  unfold py_first. induction s as [|a s IH]; simpl; [done|].
  case_decide; [done|].
  destruct (py_split c s) as [|f fs] eqn:E; simpl in *; by rewrite IH.
Qed.

Lemma py_suffix_last_chars k s : py_suffix k s = last_chars k s.
Proof.
  unfold py_suffix. induction s as [|a s IH]; simpl.
  - by destruct k.
  - destruct (Nat.leb_spec k (String.length s)) as [Hle|Hlt].
    + rewrite <- IH.
      replace (S (String.length s) - k)%nat with (S (String.length s - k)) by lia.
      done.
    + by replace (S (String.length s) - k)%nat with 0%nat by lia.
Qed.

Lemma extract_year_refines path : extract_year_from_path path = year_by_spec path.
Proof.
  unfold extract_year_from_path, year_by_spec, final_segment.
  by rewrite py_last_split, py_first_split, py_suffix_last_chars.
Qed.

Lemma after_last_dir c d base :
  has_char c base = false → after_last c ((d +:+ String c "") +:+ base) = base.
Proof.
  intros Hb. induction d as [|a d IH].
  - rewrite append_empty_l, append_cons, append_empty_l. simpl.
    rewrite Hb. by case_decide.
  - rewrite !append_cons. simpl. rewrite IH.
    rewrite !has_char_append. simpl.
    replace (if decide (c = c) then true else false) with true by (by case_decide).
    by rewrite orb_true_r.
Qed.

Lemma before_first_stem c stem rest :
  has_char c stem = false → before_first c (stem +:+ String c rest) = stem.
Proof.
  induction stem as [|a stem IH]; simpl.
  - intros _. by case_decide.
  - rewrite ?append_cons. simpl. case_decide; [done|]. intros H'. by rewrite IH.
Qed.

Lemma last_chars_short k s : (String.length s ≤ k)%nat → last_chars k s = s.
Proof.
  destruct s as [|a s]; simpl; [done|]. intros Hk.
  destruct (Nat.leb_spec k (String.length s)); [lia|done].
Qed.

Lemma last_chars_append k s t : String.length t = k → last_chars k (s +:+ t) = t.
Proof.
  intros Hk. induction s as [|a s IH].
  - rewrite append_empty_l. apply last_chars_short. lia.
  - rewrite append_cons. simpl. rewrite length_append.
    destruct (Nat.leb_spec k (String.length s + String.length t)); [done|lia].
Qed.

(** C5. The Year Extractor is the final path segment, cut before its first
    dot, reduced to its last four characters; on every path whose final
    segment is <name><YYYY>.csv, with no dot in <name><YYYY>, it returns
    the four characters YYYY. *)
Theorem extract_year_from_path_correct :
  (∀ path, extract_year_from_path path = year_by_spec path) ∧
  (∀ dir name yyyy,
     dir = "" ∨ (∃ d, dir = d +:+ "/") →
     has_char "/" (name +:+ yyyy) = false →
     has_char "." (name +:+ yyyy) = false →
     String.length yyyy = 4%nat →
     extract_year_from_path (dir +:+ (name +:+ yyyy) +:+ ".csv") = yyyy).
Proof.
  split; [apply extract_year_refines|].
  intros dir name yyyy Hdir Hslash Hdot Hlen.
  rewrite extract_year_refines. unfold year_by_spec, final_segment.
  assert (after_last "/" (dir +:+ (name +:+ yyyy) +:+ ".csv")
          = (name +:+ yyyy) +:+ ".csv") as ->.
  { assert (has_char "/" ((name +:+ yyyy) +:+ ".csv") = false) as Hbase.
    { rewrite has_char_append, Hslash. reflexivity. }
    destruct Hdir as [->|[d ->]].
    - by apply after_last_no_sep.
    - by apply after_last_dir. }
  rewrite (before_first_stem "." (name +:+ yyyy) "csv" Hdot).
  by apply last_chars_append.
Qed.

Lemma extract_year_from_path_witness :
  extract_year_from_path "database/egresos_2019.csv" = "2019".
Proof.
  apply (proj2 extract_year_from_path_correct "database/" "egresos_" "2019").
  - right. by exists "database".
  - reflexivity.
  - reflexivity.
  - reflexivity.
Defined.

(** ** Results *)

Lemma result_bind_Ok {A B} (r : result A) (k : A → result B) b :
  result_bind r k = Ok b → ∃ a, r = Ok a ∧ k a = Ok b.
Proof. destruct r as [a|e]; simpl; [eauto|done]. Qed.

Ltac result_inv H :=
  let a := fresh "a" in
  let E := fresh "E" in
  let H' := fresh "H" in
  apply result_bind_Ok in H; destruct H as (a & E & H'); rename H' into H.

(** ** Preprocessor *)

Lemma coerce_rows_Forall2 L name cols rs rs' :
  coerce_rows L name cols rs = Ok rs' →
  Forall2 (λ r r', coerce_row L name cols r = Ok r') rs rs'.
Proof.
  revert rs'. induction rs as [|r rs IH]; intros rs' H; simpl in H.
  - injection H as <-. constructor.
  - result_inv H. result_inv H. injection H as <-. constructor; auto.
Qed.

Lemma astype_column_Ok L name df df' :
  astype_column L name df = Ok df' →
  name ∈ columns df ∧ columns df' = columns df ∧
  coerce_rows L name (columns df) (rows df) = Ok (rows df').
Proof.
  unfold astype_column. destruct (decide (name ∈ columns df)) as [Hin|]; [|done].
  intros H. result_inv H. injection H as <-. auto.
Qed.

(** The shape of every successful run of the Preprocessor. *)
Lemma preprocess_data_Ok L df threshold out :
  preprocess_data L df threshold = Ok out →
  ∃ allowed,
    allowed_stars (length (columns df)) threshold = Ok allowed ∧
    Forall (λ name, name ∈ columns df) coerced_columns ∧
    Forall2 (λ r r', coerce_three L (columns df) r = Ok r')
      (filter (λ x, keeps allowed x = true) (rows df)) (rows out) ∧
    columns out =
      (λ c, default c (py_dict (zip (columns df) new_column_names) !! c))
        <$> columns df.
Proof.
  unfold preprocess_data. intros H.
  apply result_bind_Ok in H; destruct H as (allowed & Hallowed & H').
  apply result_bind_Ok in H'; destruct H' as (d1 & H1 & H).
  apply result_bind_Ok in H; destruct H as (d2 & H2 & H').
  apply result_bind_Ok in H'; destruct H' as (d3 & H3 & H).
  injection H as <-.
  apply astype_column_Ok in H1 as (Hin1 & Hc1 & Hr1).
  apply astype_column_Ok in H2 as (Hin2 & Hc2 & Hr2).
  apply astype_column_Ok in H3 as (Hin3 & Hc3 & Hr3).
  simpl in Hin1, Hc1, Hr1.
  rewrite Hc2, Hc1 in Hc3. rewrite Hc2, Hc1 in Hin3, Hr3. rewrite Hc1 in Hin2, Hr2.
  exists allowed. split_and!; [done| |..].
  - unfold coerced_columns. by repeat constructor.
  - apply coerce_rows_Forall2 in Hr1, Hr2, Hr3. simpl.
    clear -Hr1 Hr2 Hr3.
    revert Hr2 Hr3. generalize (rows d2) (rows d3).
    induction Hr1 as [|r r1 rs rs1 Hr _ IH]; intros l2 l3 Hr2 Hr3.
    + inversion Hr2; subst. inversion Hr3; subst. constructor.
    + inversion Hr2 as [|? r2 ? rs2 Hr' Hrs2]; subst.
      inversion Hr3 as [|? r3 ? rs3 Hr'' Hrs3]; subst.
      constructor; [|by eapply IH].
      unfold coerce_three. by rewrite Hr; simpl; rewrite Hr'.
  - simpl. by rewrite Hc3.
Qed.

Lemma astype_column_returns L name df rs :
  name ∈ columns df →
  coerce_rows L name (columns df) (rows df) = Ok rs →
  astype_column L name df = Ok {| columns := columns df; rows := rs |}.
Proof.
  intros Hin Hrs. unfold astype_column. rewrite decide_True by done.
  by rewrite Hrs.
Qed.

(** The Preprocessor returns as soon as the bound is computed, the three
    columns are present and every retained row converts. *)
Lemma preprocess_data_returns L df threshold allowed :
  allowed_stars (length (columns df)) threshold = Ok allowed →
  Forall (λ name, name ∈ columns df) coerced_columns →
  Forall (λ r, ∃ r', coerce_three L (columns df) r = Ok r')
    (filter (λ x, keeps allowed x = true) (rows df)) →
  ∃ out, preprocess_data L df threshold = Ok out.
Proof.
  intros Hallowed Hnames Hrows.
  assert (∃ l1 l2 l3,
            coerce_rows L "COMUNA_RESIDENCIA" (columns df)
              (filter (λ x, keeps allowed x = true) (rows df)) = Ok l1 ∧
            coerce_rows L "REGION_RESIDENCIA" (columns df) l1 = Ok l2 ∧
            coerce_rows L "ANO_EGRESO" (columns df) l2 = Ok l3)
    as (l1 & l2 & l3 & H1 & H2 & H3).
  { induction Hrows as [|r rs [r' Hr] _ (l1 & l2 & l3 & H1 & H2 & H3)].
    - by exists [], [], [].
    - unfold coerce_three in Hr. result_inv Hr. result_inv Hr.
      exists (a :: l1), (a0 :: l2), (r' :: l3). simpl.
      by rewrite E, H1, E0, H2, Hr, H3. }
  unfold coerced_columns in Hnames.
  apply Forall_cons in Hnames as [Hn1 Hnames].
  apply Forall_cons in Hnames as [Hn2 Hnames].
  apply Forall_cons in Hnames as [Hn3 _].
  unfold preprocess_data. rewrite Hallowed. simpl.
  rewrite (astype_column_returns L _ _ l1) by done. simpl.
  rewrite (astype_column_returns L _ _ l2) by done. simpl.
  rewrite (astype_column_returns L _ _ l3) by done. simpl.
  eauto.
Qed.

Lemma int_of_float_nonneg x :
  float_nonneg x = true → floor_of_float x = int_of_float x.
Proof.
  unfold float_nonneg, floor_of_float, int_of_float.
  by destruct (Prim2SF x) as [s|s| |[] m e].
Qed.

Example allowed_stars_17 : allowed_stars 17 default_threshold = Ok 8.
Proof. reflexivity. Qed.

Example allowed_stars_18 : allowed_stars 18 default_threshold = Ok 9.
Proof. reflexivity. Qed.

(** C3, as the code has it. Whenever the Preprocessor returns, its rows are
    the input rows whose count of cells equal to the literal star is at most
    [int(num_columns * threshold)], in their order, each with its three
    columns converted; that bound is the product truncated towards zero, and
    it is [floor(num_columns * threshold)] whenever the product is not
    negative. *)
Theorem preprocess_data_keeps_rows_within_bound L df threshold out :
  preprocess_data L df threshold = Ok out →
  ∃ allowed,
    int_of_float
      (PrimFloat.mul (float_of_Z (Z.of_nat (length (columns df)))) threshold)
      = Ok allowed ∧
    (float_nonneg
       (PrimFloat.mul (float_of_Z (Z.of_nat (length (columns df)))) threshold)
       = true →
     floor_of_float
       (PrimFloat.mul (float_of_Z (Z.of_nat (length (columns df)))) threshold)
       = Ok allowed) ∧
    Forall2 (λ r r', coerce_three L (columns df) r = Ok r')
      (filter (λ r, count_stars r ≤ allowed) (rows df)) (rows out).
Proof.
  intros H. apply preprocess_data_Ok in H as (allowed & Hallowed & _ & Hrows & _).
  exists allowed. split_and!.
  - exact Hallowed.
  - intros Hsign. by rewrite (int_of_float_nonneg _ Hsign).
  - erewrite list_filter_iff; [exact Hrows|].
    intros r. unfold keeps. symmetry. apply Z.leb_le.
Qed.

Lemma preprocess_data_keeps_rows_within_bound_witness :
  ∃ allowed,
    int_of_float (PrimFloat.mul (float_of_Z 18) default_threshold) = Ok allowed ∧
    (float_nonneg (PrimFloat.mul (float_of_Z 18) default_threshold) = true →
     floor_of_float (PrimFloat.mul (float_of_Z 18) default_threshold)
       = Ok allowed) ∧
    Forall2 (λ r r', coerce_three reference_libraries new_column_names r = Ok r')
      (filter (λ r, count_stars r ≤ allowed) (rows eighteen_columns))
      [[CStr "Publico"; CStr "HOMBRE"; CStr "20-29"; CStr "NINGUNA";
        CStr "CHILE"; CInt 13101; CStr "Santiago"; CInt 13;
        CStr "Metropolitana"; CStr "1"; CStr "FONASA"; CInt 2019;
        CStr "A09"; CStr "*"; CInt 3; CInt 1; CInt 2; CInt 1]].
Proof.
  apply (preprocess_data_keeps_rows_within_bound reference_libraries
           eighteen_columns default_threshold
           {| columns := new_column_names;
              rows := [[CStr "Publico"; CStr "HOMBRE"; CStr "20-29"; CStr "NINGUNA";
                        CStr "CHILE"; CInt 13101; CStr "Santiago"; CInt 13;
                        CStr "Metropolitana"; CStr "1"; CStr "FONASA"; CInt 2019;
                        CStr "A09"; CStr "*"; CInt 3; CInt 1; CInt 2; CInt 1]] |}).
  vm_compute. reflexivity.
Defined.

(** C3, counterexample. With three columns and threshold -0.25 the product
    is -0.75, whose floor is -1; the row without any star has a count (0)
    above that floor, and the Preprocessor retains it. *)
Lemma preprocess_data_floor_counterexample :
  floor_of_float (PrimFloat.mul (float_of_Z 3) (-0.25)%float) = Ok (-1) ∧
  rows three_columns = [[CStr "13101"; CStr "13"; CStr "2019"]] ∧
  -1 < count_stars [CStr "13101"; CStr "13"; CStr "2019"] ∧
  preprocess_data reference_libraries three_columns (-0.25)%float
  = Ok {| columns := take 3 new_column_names;
          rows := [[CInt 13101; CInt 13; CInt 2019]] |}.
Proof. split_and!; [reflexivity|reflexivity|done|reflexivity]. Qed.

(** *** Positional renaming *)

Lemma foldl_insert_list_to_map (pairs : list (string * string))
    (m : gmap string string) :
  NoDup pairs.*1 →
  foldl (λ m kv, <[kv.1 := kv.2]> m) m pairs = list_to_map pairs ∪ m.
Proof.
  revert m. induction pairs as [|[k v] pairs IH]; intros m Hnd; simpl.
  - by rewrite (left_id_L ∅ (∪)).
  - apply NoDup_cons in Hnd as [Hk Hnd]. rewrite IH by done.
    rewrite <- insert_union_r by (by apply not_elem_of_list_to_map_1).
    by rewrite insert_union_l.
Qed.

Lemma fst_zip_subseteq (cols new : list string) : (zip cols new).*1 ⊆ cols.
Proof.
  revert new. induction cols as [|c cols IH]; intros [|v new]; simpl;
    try apply list_subseteq_nil.
  intros x [->|Hx]%elem_of_cons; [left|right]. by eapply IH.
Qed.

Lemma NoDup_fst_zip (cols new : list string) : NoDup cols → NoDup (zip cols new).*1.
Proof.
  revert new. induction cols as [|c cols IH]; intros [|v new] Hnd; simpl;
    try constructor.
  - apply NoDup_cons in Hnd as [Hc Hnd]. intros Hin. apply Hc.
    by eapply fst_zip_subseteq.
  - apply NoDup_cons in Hnd as [Hc Hnd]. by apply IH.
Qed.

Lemma py_dict_zip (cols new : list string) :
  NoDup cols → py_dict (zip cols new) = list_to_map (zip cols new).
Proof.
  intros Hnd. unfold py_dict.
  rewrite foldl_insert_list_to_map by (by apply NoDup_fst_zip).
  by rewrite (right_id_L ∅ (∪)).
Qed.

(** With pairwise distinct labels, renaming through [dict(zip(old, new))]
    is positional: the first [len(new)] labels are replaced by the new
    names, the labels after them stay. *)
Lemma rename_positional (cols new : list string) :
  NoDup cols →
  (λ c, default c (py_dict (zip cols new) !! c)) <$> cols
  = take (length cols) new ++ drop (length new) cols.
Proof.
  intros Hnd. rewrite py_dict_zip by done.
  revert new. induction Hnd as [|c cols Hc Hnd IH]; intros [|v new]; simpl.
  - done.
  - done.
  - rewrite lookup_empty. simpl. f_equal.
    rewrite <- (list_fmap_id cols) at 2. apply list_fmap_ext.
    intros i x _. by rewrite lookup_empty.
  - rewrite lookup_insert_eq. simpl. f_equal.
    rewrite <- IH. apply list_fmap_ext.
    intros i x Hx. rewrite lookup_insert_ne; [done|].
    intros ->. apply Hc. by eapply list_elem_of_lookup_2.
Qed.

(** C4, as the code has it. Whenever the Preprocessor returns on a frame
    with pairwise distinct column labels, the first eighteen labels are
    replaced positionally by the canonical names and any further label is
    kept: a frame of eighteen columns comes out under exactly the canonical
    list, a frame of seventeen columns under its first seventeen names
    (PROCED is absent). *)
Theorem preprocess_data_renames_positionally L df threshold out :
  NoDup (columns df) →
  preprocess_data L df threshold = Ok out →
  columns out
    = take (length (columns df)) new_column_names ++ drop 18 (columns df) ∧
  (length (columns df) = 18%nat → columns out = new_column_names) ∧
  (length (columns df) = 17%nat → columns out = take 17 new_column_names).
Proof.
  intros Hnd H. apply preprocess_data_Ok in H as (_ & _ & _ & _ & Hcols).
  rewrite rename_positional in Hcols by done.
  change (length new_column_names) with 18%nat in Hcols.
  split_and!; [done|..]; intros Hlen; rewrite Hcols, Hlen.
  - rewrite drop_ge by lia. by rewrite app_nil_r.
  - rewrite drop_ge by lia. by rewrite app_nil_r.
Qed.

Lemma preprocess_data_renames_positionally_witness :
  columns {| columns := take 17 new_column_names;
             rows := [[CStr "Publico"; CStr "HOMBRE"; CStr "20-29";
                       CStr "NINGUNA"; CStr "CHILE"; CInt 13101;
                       CStr "Santiago"; CInt 13; CStr "Metropolitana";
                       CStr "1"; CStr "FONASA"; CInt 2019; CStr "A09";
                       CStr "*"; CInt 3; CInt 1; CInt 2]] |}
  = take 17 new_column_names.
Proof.
  refine (proj2 (proj2 (preprocess_data_renames_positionally
            reference_libraries seventeen_columns default_threshold _ _ _)) _).
  - refine (bool_decide_unpack _ _). vm_compute. exact I.
  - vm_compute. reflexivity.
  - reflexivity.
Defined.

(** C4, counterexample. A frame of seventeen distinct columns (the first
    seventeen canonical names) is preprocessed successfully, and its output
    labels are not the canonical list: PROCED is missing. *)
Lemma preprocess_data_seventeen_counterexample :
  length (columns seventeen_columns) = 17%nat ∧
  ∃ out, preprocess_data reference_libraries seventeen_columns default_threshold
         = Ok out ∧
         columns out ≠ new_column_names.
Proof.
  split; [reflexivity|]. eexists. split; [vm_compute; reflexivity|].
  simpl. discriminate.
Qed.

(** *** Frame *)

Lemma coerce_row_frame L name cols r r' :
  coerce_row L name cols r = Ok r' →
  length r' = length r ∧
  ∀ i c, cols !! i = Some c → c ≠ name → r' !! i = r !! i.
Proof.
  revert cols r'. induction r as [|x r IH]; intros cols r' H.
  - destruct cols; injection H as <-; done.
  - destruct cols as [|c0 cols]; simpl in H.
    { injection H as <-. split; [done|]. by intros [|i]. }
    result_inv H. result_inv H. injection H as <-.
    destruct (IH _ _ E0) as [Hlen Hcells]. split; [simpl; by rewrite Hlen|].
    intros [|i] c Hc Hne; simpl in *.
    + injection Hc as ->. destruct (decide (c = name)); [done|].
      by injection E as ->.
    + by eapply Hcells.
Qed.

Lemma coerce_three_frame L cols r r' :
  coerce_three L cols r = Ok r' →
  length r' = length r ∧
  ∀ i c, cols !! i = Some c → c ∉ coerced_columns → r' !! i = r !! i.
Proof.
  unfold coerce_three. intros H. result_inv H. result_inv H.
  apply coerce_row_frame in E as [Hl1 Hc1].
  apply coerce_row_frame in E0 as [Hl2 Hc2].
  apply coerce_row_frame in H as [Hl3 Hc3].
  split; [congruence|]. intros i c Hc Hnot.
  unfold coerced_columns in Hnot.
  rewrite (Hc3 i c), (Hc2 i c), (Hc1 i c); try done;
    intros ->; apply Hnot; set_solver.
Qed.

(** C9. The Preprocessor adds no row, keeps the retained rows in their
    original relative order, and leaves every cell of a retained row that
    lies outside the three converted columns as it was. *)
Theorem preprocess_data_frame L df threshold out :
  preprocess_data L df threshold = Ok out →
  (length (rows out) ≤ length (rows df))%nat ∧
  ∃ kept,
    kept `sublist_of` rows df ∧
    Forall2 (λ r r',
               length r' = length r ∧
               ∀ i c, columns df !! i = Some c → c ∉ coerced_columns →
                      r' !! i = r !! i)
            kept (rows out).
Proof.
  intros H. apply preprocess_data_Ok in H as (allowed & _ & _ & Hrows & _).
  split.
  - rewrite <- (Forall2_length _ _ _ Hrows). apply length_filter.
  - exists (filter (λ x, keeps allowed x = true) (rows df)).
    split; [apply sublist_filter|].
    eapply Forall2_impl; [exact Hrows|].
    intros r r' Hr. by apply (coerce_three_frame L).
Qed.

Lemma preprocess_data_frame_witness :
  (length [[CStr "Publico"; CStr "HOMBRE"; CStr "20-29"; CStr "NINGUNA";
            CStr "CHILE"; CInt 13101; CStr "Santiago"; CInt 13;
            CStr "Metropolitana"; CStr "1"; CStr "FONASA"; CInt 2019;
            CStr "A09"; CStr "*"; CInt 3; CInt 1; CInt 2; CInt 1]]
   ≤ length (rows eighteen_columns))%nat ∧
  ∃ kept,
    kept `sublist_of` rows eighteen_columns ∧
    Forall2 (λ r r',
               length r' = length r ∧
               ∀ i c, columns eighteen_columns !! i = Some c →
                      c ∉ coerced_columns → r' !! i = r !! i)
            kept
            [[CStr "Publico"; CStr "HOMBRE"; CStr "20-29"; CStr "NINGUNA";
              CStr "CHILE"; CInt 13101; CStr "Santiago"; CInt 13;
              CStr "Metropolitana"; CStr "1"; CStr "FONASA"; CInt 2019;
              CStr "A09"; CStr "*"; CInt 3; CInt 1; CInt 2; CInt 1]].
Proof.
  apply (preprocess_data_frame reference_libraries eighteen_columns
           default_threshold
           {| columns := new_column_names;
              rows := [[CStr "Publico"; CStr "HOMBRE"; CStr "20-29"; CStr "NINGUNA";
                        CStr "CHILE"; CInt 13101; CStr "Santiago"; CInt 13;
                        CStr "Metropolitana"; CStr "1"; CStr "FONASA"; CInt 2019;
                        CStr "A09"; CStr "*"; CInt 3; CInt 1; CInt 2; CInt 1]] |}).
  vm_compute. reflexivity.
Defined.

(** ** The statements recognised by the database model *)

Lemma strip_prefix_append p s : strip_prefix p (p +:+ s) = Some s.
Proof.
  induction p as [|a p IH]; [done|].
  rewrite append_cons. simpl. by case_decide.
Qed.

Lemma span_name_append t rest :
  string_forall is_ident_char t = true →
  span_name (t +:+ String " " rest) = (t, String " " rest).
Proof.
  induction t as [|a t IH]; [done|].
  rewrite append_cons. simpl. intros [Ha Ht]%andb_prop.
  by rewrite Ha, (IH Ht).
Qed.

Lemma plain_name_ident t : plain_name t = true → string_forall is_ident_char t = true.
Proof.
  destruct t as [|a t]; [done|]. unfold plain_name.
  intros [[Ha Ht]%andb_prop _]%andb_prop. simpl.
  unfold is_ident_char at 1. by rewrite Ha, Ht.
Qed.

Lemma parse_existence_query t y :
  plain_name t = true →
  parse_statement (existence_query t y) = Some (SelectWhereYear t y).
Proof.
  intros Ht%plain_name_ident. unfold parse_statement, existence_query.
  rewrite strip_prefix_append.
  change (" WHERE ANO_EGRESO=" +:+ y) with (String " " ("WHERE ANO_EGRESO=" +:+ y)).
  rewrite (span_name_append _ _ Ht).
  change (String " " ("WHERE ANO_EGRESO=" +:+ y)) with (" WHERE ANO_EGRESO=" +:+ y).
  by rewrite strip_prefix_append.
Qed.

Lemma parse_report_query t :
  plain_name t = true →
  parse_statement (report_query t) = Some (CountByYear t).
Proof.
  intros Ht%plain_name_ident. unfold parse_statement, report_query.
  change (strip_prefix "SELECT * FROM " _) with (@None string).
  rewrite strip_prefix_append.
  change (" GROUP BY ANO_EGRESO") with (String " " "GROUP BY ANO_EGRESO").
  rewrite (span_name_append _ _ Ht). by case_decide.
Qed.

Lemma sqlite_execute_existence L d t y :
  plain_name t = true →
  sqlite_execute L d (existence_query t y) =
    match classify_operand y with
    | OpOther => beyond L d (existence_query t y)
    | op => match d !! sql_fold t with
            | None => Raise OperationalError
            | Some tbl => select_where_year L d (existence_query t y) tbl op
            end
    end.
Proof.
  intros Ht. unfold sqlite_execute. rewrite (parse_existence_query _ _ Ht), Ht.
  by destruct (classify_operand y).
Qed.

Lemma sqlite_execute_report L d t :
  plain_name t = true →
  sqlite_execute L d (report_query t) =
    match d !! sql_fold t with
    | None => Raise OperationalError
    | Some tbl => count_by_year L d (report_query t) tbl
    end.
Proof.
  intros Ht. unfold sqlite_execute. by rewrite (parse_report_query _ Ht), Ht.
Qed.

(** ** Existence Checker *)

Lemma data_already_exists_run L engine t y w :
  data_already_exists L engine t y w =
    (match sqlite_execute L (db w) (existence_query t y) with
     | Ok [] => Ok false
     | Ok (_ :: _) => Ok true
     | Raise OperationalError => Ok false
     | Raise e => Raise e
     end,
     logged w [Execute (existence_query t y)]).
Proof.
  unfold data_already_exists, bind, log, get_db, logged. simpl.
  destruct (sqlite_execute _ _ _) as [[|r rs]|[]]; reflexivity.
Qed.



Lemma ident_start_not_digit a : is_ident_start a = true → Ascii.is_nat a = None.
Proof. by destruct a as [[] [] [] [] [] [] [] []]. Qed.

Lemma classify_plain_name y : plain_name y = true → classify_operand y = OpName y.
Proof.
  intros Hy. unfold classify_operand. rewrite Hy.
  destruct y as [|a y]; [done|]. unfold plain_name in Hy.
  apply andb_prop in Hy as [[Ha _]%andb_prop _]. simpl.
  by rewrite (ident_start_not_digit a Ha).
Qed.

(** C10, as the code has it. The Existence Checker returns false for every
    operational error of its query, whatever its cause; in particular a
    year that is a bare identifier naming no column of the table makes the
    query fail, and the checker returns false. *)
Theorem data_already_exists_operational_error L engine table_name year w :
  (sqlite_execute L (db w) (existence_query table_name year)
     = Raise OperationalError →
   data_already_exists L engine table_name year w
     = (Ok false, logged w [Execute (existence_query table_name year)])) ∧
  (∀ tbl,
     plain_name table_name = true →
     db w !! sql_fold table_name = Some tbl →
     plain_name year = true →
     find_column year (columns tbl) = None →
     sqlite_execute L (db w) (existence_query table_name year)
       = Raise OperationalError ∧
     data_already_exists L engine table_name year w
       = (Ok false, logged w [Execute (existence_query table_name year)])).
Proof.
  rewrite data_already_exists_run.
  assert (sqlite_execute L (db w) (existence_query table_name year)
            = Raise OperationalError →
          (match sqlite_execute L (db w) (existence_query table_name year) with
           | Ok [] => Ok false
           | Ok (_ :: _) => Ok true
           | Raise OperationalError => Ok false
           | Raise e => Raise e
           end, logged w [Execute (existence_query table_name year)])
          = (Ok false, logged w [Execute (existence_query table_name year)]))
    as Hfail by (by intros ->).
  split; [exact Hfail|].
  intros tbl Ht Hd Hy Hcol.
  assert (sqlite_execute L (db w) (existence_query table_name year)
            = Raise OperationalError) as Hq.
  { rewrite sqlite_execute_existence by done.
    rewrite (classify_plain_name _ Hy), Hd. unfold select_where_year.
    destruct (find_column "ANO_EGRESO" (columns tbl)); [|done]. by rewrite Hcol. }
  split; [exact Hq|by apply Hfail].
Qed.

Lemma data_already_exists_operational_error_witness :
  sqlite_execute reference_libraries (db world_2019)
    (existence_query "egresos_pacientes" "s_19") = Raise OperationalError ∧
  data_already_exists reference_libraries
    "sqlite:///database/ministerio_de_salud_chile.db" "egresos_pacientes" "s_19"
    world_2019
  = (Ok false,
     logged world_2019 [Execute (existence_query "egresos_pacientes" "s_19")]).
Proof.
  refine (proj2 (data_already_exists_operational_error reference_libraries
            "sqlite:///database/ministerio_de_salud_chile.db"
            "egresos_pacientes" "s_19" world_2019) table_2019 _ _ _ _).
  - reflexivity.
  - reflexivity.
  - reflexivity.
  - reflexivity.
Defined.

(** C10, counterexample. The year extracted from a file called SEXO.csv is
    the word SEXO, which is no numeric literal; interpolated, it names a
    column, the query succeeds and returns the row whose two columns agree,
    and the Existence Checker returns true. *)
Lemma data_already_exists_column_name_counterexample :
  extract_year_from_path "data/SEXO.csv" = "SEXO" ∧
  decimal_value "SEXO" = None ∧
  sqlite_execute reference_libraries (db world_2019)
    (existence_query "egresos_pacientes" "SEXO") = Ok (rows table_2019) ∧
  (data_already_exists reference_libraries
     "sqlite:///database/ministerio_de_salud_chile.db" "egresos_pacientes" "SEXO"
     world_2019).1 = Ok true.
Proof. split_and!; reflexivity. Qed.

(** ** Validator *)

Lemma for_each_log {A} (xs : list A) (f : A → event) w :
  for_each xs (λ x, log (f x)) w = (Ok tt, logged w (f <$> xs)).
Proof.
  revert w. induction xs as [|x xs IH]; intros w; simpl.
  - unfold ret, logged. destruct w. simpl. by rewrite app_nil_r.
  - unfold bind, log at 1. rewrite IH. unfold logged. simpl.
    by rewrite <- app_assoc.
Qed.

Lemma validate_data_run L engine t w :
  validate_data L engine t w =
    match sqlite_execute L (db w) (report_query t) with
    | Ok result =>
        (Ok tt, logged w (Execute (report_query t) :: (PrintRow <$> take 100 result)))
    | Raise e => (Raise e, logged w [Execute (report_query t)])
    end.
Proof.
  unfold validate_data, bind, log at 1, get_db, lift. simpl.
  destruct (sqlite_execute _ _ _) as [result|e]; [|done].
  rewrite for_each_log. unfold logged. simpl. by rewrite <- app_assoc.
Qed.



Lemma bump_keys k acc : (bump k acc).*1 ⊆ k :: acc.*1.
Proof.
  induction acc as [|[k' c] acc IH]; simpl.
  - done.
  - case_decide; simpl; intros x Hx.
    + by right.
    + apply elem_of_cons in Hx as [->|Hx%IH]; [right; left|].
      apply elem_of_cons in Hx as [->|Hx]; [left|by do 2 right].
Qed.

Lemma bump_NoDup k acc : NoDup acc.*1 → NoDup (bump k acc).*1.
Proof.
  induction acc as [|[k' c] acc IH]; simpl; intros Hnd.
  - apply NoDup_singleton.
  - apply NoDup_cons in Hnd as [Hk' Hnd]. case_decide; simpl.
    + by apply NoDup_cons.
    + apply NoDup_cons. split; [|by apply IH].
      intros Hin%bump_keys. by apply elem_of_cons in Hin as [->|Hin].
Qed.

Lemma bump_positive k acc :
  Forall (λ g, (0 < g.2)%nat) acc → Forall (λ g, (0 < g.2)%nat) (bump k acc).
Proof.
  induction 1 as [|[k' c] acc Hc Hacc IH]; simpl.
  - repeat constructor.
  - case_decide; constructor; simpl in *; try lia; try done.
Qed.

Lemma count_groups_invariant ks :
  NoDup (count_groups ks).*1 ∧ Forall (λ g, (0 < g.2)%nat) (count_groups ks).
Proof.
  unfold count_groups. induction ks as [|k ks [IH1 IH2]] using rev_ind.
  - split; constructor.
  - rewrite foldl_snoc. split; [by apply bump_NoDup|by apply bump_positive].
Qed.



(** The rows the Validator prints for a table inside the modelled
    fragment. *)
Lemma count_by_year_Ok L d q tbl j ks :
  find_column "ANO_EGRESO" (columns tbl) = Some j →
  mapM (year_of j) (rows tbl) = Some ks →
  count_by_year L d q tbl = Ok (group_row <$> group_order L (count_groups ks)).
Proof. unfold count_by_year. by intros -> ->. Qed.





(** ** The script *)

Lemma parse_arguments_Ok sys_argv w file_path :
  (parse_arguments sys_argv w).1 = Ok file_path →
  parse_arguments sys_argv w = (Ok file_path, w).
Proof.
  unfold parse_arguments.
  destruct (getopt _ _ _) as [err|[arguments values]]; simpl.
  - done.
  - unfold ret. simpl. by intros [= ->].
Qed.


(** The script on a run with a file path, step by step. *)
Lemma main_with_path L sys_argv file_path w :
  (parse_arguments sys_argv w).1 = Ok file_path →
  file_path ≠ "" →
  main L sys_argv w =
    let w1 := logged w (prelude ++ [Print ("File Path: " +:+ file_path);
                                    ReadCsv file_path]) in
    match fs w !! file_path with
    | None => (Raise FileNotFoundError, w1)
    | Some df =>
        match data_already_exists L engine_url destination
                (extract_year_from_path file_path)
                (logged w1 [Print "[INFO]: Load data as a pandas dataframe"]) with
        | (Raise e, w2) => (Raise e, w2)
        | (Ok true, w2) =>
            validate_data L engine_url destination
              (logged w2 [Print already_exists_message])
        | (Ok false, w2) =>
            match preprocess_data L df default_threshold with
            | Raise e => (Raise e, w2)
            | Ok out =>
                match to_sql out destination (db w2) with
                | Raise e =>
                    (Raise e, logged w2 [Print "[INFO]: Preprocess data";
                                         ToSql destination out])
                | Ok d' =>
                    validate_data L engine_url destination
                      {| fs := fs w2; db := d';
                         trace := trace w2 ++
                           [Print "[INFO]: Preprocess data";
                            ToSql destination out;
                            Print "[INFO]: Loads data into DB"] |}
                end
            end
        end
    end.
Proof.
  intros Hparse Hpath. apply parse_arguments_Ok in Hparse.
  unfold main. unfold bind at 1. rewrite Hparse.
  rewrite (bool_decide_eq_true_2 _ Hpath).
  unfold create_db_engine, print, load_data, save_to_database.
  unfold bind, log, lift, get_db, put_db, ret, logged. simpl.
  destruct (fs w !! file_path) as [df|]; simpl;
    [|by rewrite <- !app_assoc].
  rewrite !data_already_exists_run. simpl.
  destruct (sqlite_execute _ _ _) as [[|r rs]|[]]; simpl; try done.
  all: try (rewrite <- !app_assoc; simpl; reflexivity).
  all: destruct (preprocess_data _ _ _) as [out|e]; simpl;
    [|rewrite <- !app_assoc; reflexivity].
  all: destruct (to_sql _ _ _) as [d'|e]; simpl;
    rewrite <- !app_assoc; reflexivity.
Qed.

Lemma main_without_path L sys_argv w :
  (parse_arguments sys_argv w).1 = Ok "" →
  main L sys_argv w =
    validate_data L engine_url destination
      (logged w (prelude ++ [Print "No path was provided"])).
Proof.
  intros Hparse. apply parse_arguments_Ok in Hparse.
  unfold main. unfold bind at 1. rewrite Hparse. simpl.
  unfold create_db_engine, print.
  unfold bind, log, ret, logged. simpl.
  by rewrite <- !app_assoc.
Qed.

Ltac absent_from_trace H :=
  repeat first
    [ apply elem_of_nil in H; destruct H
    | apply elem_of_cons in H as [H|H]; [discriminate H|]
    | apply list_elem_of_fmap in H as (? & H & _); discriminate H ].




(** C7, the failing run. Without any argument and on a database that has
    no destination table yet, the script prints that no path was provided,
    the Validator's query then fails with an operational error that nothing
    catches, and the process ends with status 1. *)
Theorem run_without_path_on_fresh_database L files :
  run L ["pipweline.py"] files ∅
  = (1, {| fs := files;
           db := ∅;
           trace :=
             [Print "[INFO]: Connection Checked: sqlite:///database/ministerio_de_salud_chile.db";
              Print "[INFO]: Database connection";
              Print "No path was provided";
              Execute "SELECT ANO_EGRESO, count(*) FROM egresos_pacientes GROUP BY ANO_EGRESO"] |}).
Proof.
  unfold run. fold (initial files ∅).
  rewrite main_without_path by reflexivity.
  rewrite validate_data_run, sqlite_execute_report by reflexivity.
  reflexivity.
Qed.

(** Without a file path and with a destination table inside the modelled
    fragment, the script reads no file, prints that no path was provided,
    prints the report and ends with status 0. *)
Lemma run_without_path_on_existing_table L sys_argv files database tbl j ks :
  (parse_arguments sys_argv (initial files database)).1 = Ok "" →
  database !! sql_fold destination = Some tbl →
  find_column "ANO_EGRESO" (columns tbl) = Some j →
  mapM (year_of j) (rows tbl) = Some ks →
  run L sys_argv files database
  = (0, {| fs := files;
           db := database;
           trace := prelude ++
             [Print "No path was provided"; Execute (report_query destination)] ++
             (PrintRow <$> take 100
                (group_row <$> group_order L (count_groups ks))) |}).
Proof.
  intros Hparse Hd Hj Hks. unfold run. fold (initial files database).
  rewrite (main_without_path _ _ _ Hparse).
  rewrite validate_data_run, sqlite_execute_report by reflexivity.
  unfold logged, initial. cbn [db].
  rewrite Hd, (count_by_year_Ok _ _ _ _ _ _ Hj Hks). reflexivity.
Qed.

(** ** Loading the same file twice *)

Lemma find_column_Some name cols j :
  find_column name cols = Some j →
  ∃ c, cols !! j = Some c ∧ sql_fold c = sql_fold name.
Proof.
  unfold find_column. intros H.
  destruct (list_find _ cols) as [[i c]|] eqn:E; [|done].
  injection H as <-. apply list_find_Some in E as (Hc & Hfold & _). eauto.
Qed.

Lemma find_column_fold name name' cols :
  sql_fold name = sql_fold name' → find_column name cols = find_column name' cols.
Proof. unfold find_column. by intros ->. Qed.

(** After a successful append, a year held by an appended row is held by
    a row of the table. *)
Lemma to_sql_year out t d d' j r n tbl1 j1 :
  to_sql out t d = Ok d' →
  find_column "ANO_EGRESO" (columns out) = Some j →
  r ∈ rows out →
  year_of j r = Some n →
  d' !! sql_fold t = Some tbl1 →
  find_column "ANO_EGRESO" (columns tbl1) = Some j1 →
  ∃ r1, r1 ∈ rows tbl1 ∧ year_of j1 r1 = Some n.
Proof.
  unfold to_sql. intros H Hj Hr Hn Hd' Hj1.
  destruct (_ || _); [done|].
  destruct (d !! sql_fold t) as [tbl|] eqn:Hd.
  - destruct (forallb _ _); [|done]. injection H as <-.
    rewrite lookup_insert_eq in Hd'. injection Hd' as <-. simpl in *.
    exists (align_row (columns out) (columns tbl) r). split.
    + apply elem_of_app. right. apply list_elem_of_fmap. eauto.
    + apply find_column_Some in Hj1 as (c & Hc & Hfold).
      unfold year_of, align_row. rewrite list_lookup_fmap, Hc. simpl.
      rewrite (find_column_fold _ _ _ Hfold), Hj.
      unfold year_of in Hn. by destruct (r !! j) as [[]|].
  - injection H as <-. rewrite lookup_insert_eq in Hd'. injection Hd' as <-.
    exists r. split; [done|]. congruence.
Qed.





(** * Further properties of the script *)

(** ** Year Extractor: what it returns on any path *)

Lemma last_chars_length k s : (String.length (last_chars k s) ≤ k)%nat.
Proof.
  induction s as [|a s IH]; simpl; [lia|].
  destruct (Nat.leb_spec k (String.length s)); simpl; lia.
Qed.

Lemma last_chars_has_char c k s :
  has_char c s = false → has_char c (last_chars k s) = false.
Proof.
  induction s as [|a s IH]; simpl; [done|].
  case_decide; [done|]. intros Hs.
  destruct (k <=? String.length s)%nat; [by apply IH|].
  simpl. by rewrite decide_False.
Qed.

Lemma before_first_has_char c c' s :
  c' = c ∨ has_char c' s = false → has_char c' (before_first c s) = false.
Proof.
  induction s as [|a s IH]; simpl; [done|].
  intros Hc. destruct (decide (a = c)) as [->|Ha]; [done|]. simpl.
  destruct (decide (a = c')) as [->|Ha'].
  - by destruct Hc as [->|Hc].
  - by apply IH.
Qed.

Lemma after_last_has_char c s : has_char c (after_last c s) = false.
Proof.
  induction s as [|a s IH]; simpl; [done|].
  destruct (has_char c s) eqn:Hs; [done|].
  case_decide; [done|]. simpl. by rewrite decide_False.
Qed.

(** X1. On every path the Year Extractor returns at most four characters,
    none of which is a slash or a dot. *)
Theorem extract_year_from_path_shape path :
  (String.length (extract_year_from_path path) ≤ 4)%nat ∧
  has_char "/" (extract_year_from_path path) = false ∧
  has_char "." (extract_year_from_path path) = false.
Proof.
  rewrite extract_year_refines. unfold year_by_spec, final_segment.
  split_and!.
  - apply last_chars_length.
  - apply last_chars_has_char, before_first_has_char. right.
    apply after_last_has_char.
  - apply last_chars_has_char, before_first_has_char. by left.
Qed.

(** X2. The directories of the path and whatever follows the first dot of
    the file name play no part, and nothing checks the result: a base name
    of at most four characters is returned whole, digits or not. *)
Theorem extract_year_from_path_short_name dir name rest :
  has_char "/" (name +:+ String "." rest) = false →
  has_char "." name = false →
  (String.length name ≤ 4)%nat →
  extract_year_from_path (name +:+ String "." rest) = name ∧
  extract_year_from_path ((dir +:+ "/") +:+ name +:+ String "." rest) = name.
Proof.
  intros Hslash Hdot Hlen. rewrite !extract_year_refines.
  unfold year_by_spec, final_segment.
  rewrite (after_last_dir "/" dir _ Hslash), (after_last_no_sep _ _ Hslash).
  rewrite (before_first_stem "." name rest Hdot).
  by rewrite (last_chars_short 4 name Hlen).
Qed.

Lemma extract_year_from_path_short_name_witness :
  extract_year_from_path ("SEXO" +:+ String "." "csv") = "SEXO" ∧
  extract_year_from_path (("data" +:+ "/") +:+ "SEXO" +:+ String "." "csv") = "SEXO".
Proof.
  apply (extract_year_from_path_short_name "data" "SEXO" "csv").
  - reflexivity.
  - reflexivity.
  - simpl. lia.
Defined.

(** ** Argument Reader: the command lines it accepts and rejects *)

(** X3. The path may be given as [-f PATH], [-fPATH], [--file PATH] or
    [--file=PATH]; it is returned as it stands, whatever its characters,
    and nothing is printed. *)
Theorem parse_arguments_accepts script p c w :
  parse_arguments [script; "-f"; p] w = (Ok p, w) ∧
  parse_arguments [script; "-f" +:+ String c p] w = (Ok (String c p), w) ∧
  parse_arguments [script; "--file"; p] w = (Ok p, w) ∧
  parse_arguments [script; "--file=" +:+ p] w = (Ok p, w).
Proof. split_and!; reflexivity. Qed.

Lemma getopt_unrecognized c rest args :
  c ≠ "f"%char → c ≠ "-"%char →
  getopt (String "-" (String c rest) :: args) "f:" ["file="]
  = inl ("option -" +:+ String c "" +:+ " not recognized").
Proof.
  intros Hf Hdash.
  destruct c as [[] [] [] [] [] [] [] []]; try done; reflexivity.
Qed.

(** X4. An option letter other than f ends the process with status 2
    after one printed message: no file is read, no statement reaches the
    database, and the database is left as it was. *)
Theorem run_unrecognized_option L script c rest args files database :
  c ≠ "f"%char → c ≠ "-"%char →
  run L (script :: String "-" (String c rest) :: args) files database
  = (2, {| fs := files; db := database;
           trace := [Print ("option -" +:+ String c "" +:+ " not recognized")] |}).
Proof.
  intros Hf Hdash. unfold run, main, bind at 1, parse_arguments.
  change (drop 1 (script :: String "-" (String c rest) :: args))
    with (String "-" (String c rest) :: args).
  by rewrite (getopt_unrecognized c rest args Hf Hdash).
Qed.

Lemma run_unrecognized_option_witness :
  run reference_libraries ("pipweline.py" :: String "-" (String "x" "") :: ["-f"; "data/egresos_2019.csv"])
    (fs world_2019) (db world_2019)
  = (2, {| fs := fs world_2019; db := db world_2019;
           trace := [Print ("option -" +:+ String "x" "" +:+ " not recognized")] |}).
Proof.
  apply (run_unrecognized_option reference_libraries "pipweline.py" "x" ""
           ["-f"; "data/egresos_2019.csv"]); discriminate.
Defined.

(** X5. Options are read only up to the first argument that is not one: a
    first argument that is empty, a lone dash, a double dash or that does
    not start with a dash leaves the path empty, whatever follows it (a
    later [-f] included). *)
Theorem parse_arguments_stops_at_positional script a rest w :
  a = "" ∨ a = "-" ∨ a = "--" ∨ (∃ c r, a = String c r ∧ c ≠ "-"%char) →
  parse_arguments (script :: a :: rest) w = (Ok "", w).
Proof.
  intros [->|[->|[->|(c & r & -> & Hc)]]]; try reflexivity.
  destruct c as [[] [] [] [] [] [] [] []]; try done; reflexivity.
Qed.

Lemma parse_arguments_stops_at_positional_witness :
  parse_arguments ("pipweline.py" :: "data/egresos_2019.csv" :: ["-f"; "other.csv"])
    world_2019
  = (Ok "", world_2019).
Proof.
  apply (parse_arguments_stops_at_positional "pipweline.py"
           "data/egresos_2019.csv" ["-f"; "other.csv"] world_2019).
  do 3 right. exists "d"%char, "ata/egresos_2019.csv". by split.
Defined.

(** X6. When the flag is given more than once, in either form, the value
    given last is the path. *)
Theorem parse_arguments_last_flag_wins script p1 p2 w :
  parse_arguments [script; "-f"; p1; "-f"; p2] w = (Ok p2, w) ∧
  parse_arguments [script; "--file=" +:+ p1; "-f"; p2] w = (Ok p2, w) ∧
  parse_arguments [script; "-f"; p1; "--file=" +:+ p2] w = (Ok p2, w) ∧
  parse_arguments [script; "--file"; p1; "--file"; p2] w = (Ok p2, w).
Proof. split_and!; reflexivity. Qed.

(** ** Preprocessor: failures and what its output satisfies *)

Lemma astype_column_missing L name df :
  name ∉ columns df → astype_column L name df = Raise (KeyError name).
Proof. intros Hmissing. unfold astype_column. by rewrite decide_False. Qed.

(** X7. A frame that lacks one of the three converted columns is never
    preprocessed; when COMUNA_RESIDENCIA is the one missing, the failure is
    the KeyError of that name, whatever the rows hold. *)
Theorem preprocess_data_missing_column L df threshold :
  (∀ name out, name ∈ coerced_columns → name ∉ columns df →
               preprocess_data L df threshold ≠ Ok out) ∧
  (∀ allowed, allowed_stars (length (columns df)) threshold = Ok allowed →
              "COMUNA_RESIDENCIA" ∉ columns df →
              preprocess_data L df threshold = Raise (KeyError "COMUNA_RESIDENCIA")).
Proof.
  split.
  - intros name out Hname Hmissing H.
    apply preprocess_data_Ok in H as (_ & _ & Hnames & _).
    by apply (proj1 (Forall_forall _ _) Hnames name) in Hname.
  - intros allowed Hallowed Hmissing. unfold preprocess_data.
    rewrite Hallowed. simpl. by rewrite astype_column_missing.
Qed.

Lemma preprocess_data_missing_column_witness :
  preprocess_data reference_libraries no_residence_columns default_threshold
  = Raise (KeyError "COMUNA_RESIDENCIA").
Proof.
  refine (proj2 (preprocess_data_missing_column reference_libraries
                   no_residence_columns default_threshold) 1 _ _).
  - reflexivity.
  - intros Hin. by repeat (apply elem_of_cons in Hin as [Hin|Hin]; [done|]);
      apply elem_of_nil in Hin.
Defined.

Lemma int_of_float_mul_non_finite x threshold :
  non_finite threshold = true →
  int_of_float (PrimFloat.mul x threshold) = Raise ValueError ∨
  int_of_float (PrimFloat.mul x threshold) = Raise OverflowError.
Proof.
  unfold non_finite, int_of_float. rewrite mul_spec. unfold SF64mul, SFmul.
  destruct (Prim2SF threshold), (Prim2SF x); try done; auto.
Qed.

(** X8. With a threshold that is NaN or infinite the Preprocessor raises
    ValueError or OverflowError on every frame, before looking at any
    column. *)
Theorem preprocess_data_non_finite_threshold L df threshold :
  non_finite threshold = true →
  preprocess_data L df threshold = Raise ValueError ∨
  preprocess_data L df threshold = Raise OverflowError.
Proof.
  intros Ht. unfold preprocess_data, allowed_stars.
  destruct (int_of_float_mul_non_finite
              (float_of_Z (Z.of_nat (length (columns df)))) threshold Ht)
    as [-> | ->]; auto.
Qed.

Lemma preprocess_data_non_finite_threshold_witness :
  preprocess_data reference_libraries eighteen_columns nan = Raise ValueError ∨
  preprocess_data reference_libraries eighteen_columns nan = Raise OverflowError.
Proof.
  apply (preprocess_data_non_finite_threshold reference_libraries
           eighteen_columns nan).
  reflexivity.
Defined.

Lemma coerce_row_int_cells L name cols r r' i :
  coerce_row L name cols r = Ok r' →
  (cols !! i = Some name ∧ (i < length r)%nat) ∨ (∃ z, r !! i = Some (CInt z)) →
  ∃ z, r' !! i = Some (CInt z).
Proof.
  revert cols r' i. induction r as [|x r IH]; intros cols r' i H Hi.
  - destruct cols; injection H as <-; destruct Hi as [[_ ?]|[z ?]];
      simpl in *; [lia|done|lia|done].
  - destruct cols as [|c0 cols]; simpl in H.
    { injection H as <-. destruct Hi as [[? _]|Hz]; [done|exact Hz]. }
    result_inv H. result_inv H. injection H as <-.
    destruct i as [|i]; simpl in *.
    + destruct (decide (c0 = name)) as [->|Hne].
      * result_inv E. injection E as <-. eauto.
      * injection E as <-. destruct Hi as [[[= ?] _]|Hz]; [done|exact Hz].
    + apply (IH cols a0 i E0). destruct Hi as [[? ?]|Hz]; [left|by right].
      split; [done|lia].
Qed.

(** X9. In every row the Preprocessor returns, each cell that stands under
    one of the three converted column labels holds an integer. *)
Theorem preprocess_data_integer_columns L df threshold out r' i name :
  preprocess_data L df threshold = Ok out →
  r' ∈ rows out →
  columns df !! i = Some name →
  name ∈ coerced_columns →
  (i < length r')%nat →
  ∃ z, r' !! i = Some (CInt z).
Proof.
  intros H Hr' Hi Hname Hlen.
  apply preprocess_data_Ok in H as (allowed & _ & _ & Hrows & _).
  apply list_elem_of_lookup in Hr' as [k Hk].
  destruct (Forall2_lookup_r _ _ _ _ _ Hrows Hk) as (r & _ & H3).
  unfold coerce_three in H3. result_inv H3. result_inv H3.
  pose proof (coerce_row_frame _ _ _ _ _ E) as [Hl1 _].
  pose proof (coerce_row_frame _ _ _ _ _ E0) as [Hl2 _].
  pose proof (coerce_row_frame _ _ _ _ _ H3) as [Hl3 _].
  unfold coerced_columns in Hname.
  apply elem_of_cons in Hname as [->|Hname].
  { eapply coerce_row_int_cells; [exact H3|right].
    eapply coerce_row_int_cells; [exact E0|right].
    eapply coerce_row_int_cells; [exact E|left]. split; [done|lia]. }
  apply elem_of_cons in Hname as [->|Hname].
  { eapply coerce_row_int_cells; [exact H3|right].
    eapply coerce_row_int_cells; [exact E0|left]. split; [done|lia]. }
  apply elem_of_cons in Hname as [->|Hname]; [|by apply elem_of_nil in Hname].
  eapply coerce_row_int_cells; [exact H3|left]. split; [done|lia].
Qed.

Lemma preprocess_data_integer_columns_witness :
  ∃ z, (default [] (rows preprocessed_2019 !! 0%nat)) !! 5%nat = Some (CInt z).
Proof.
  apply (preprocess_data_integer_columns reference_libraries eighteen_columns
           default_threshold preprocessed_2019
           (default [] (rows preprocessed_2019 !! 0%nat)) 5
           "COMUNA_RESIDENCIA").
  - vm_compute. reflexivity.
  - apply list_elem_of_here.
  - reflexivity.
  - apply list_elem_of_here.
  - simpl. lia.
Defined.

Lemma coerce_row_stars L name cols r r' :
  coerce_row L name cols r = Ok r' → count_stars r' ≤ count_stars r.
Proof.
  unfold count_stars. revert cols r'.
  induction r as [|x r IH]; intros cols r' H.
  - by destruct cols; injection H as <-.
  - destruct cols as [|c0 cols]; simpl in H; [by injection H as <-|].
    result_inv H. result_inv H. injection H as <-.
    specialize (IH _ _ E0). rewrite !filter_cons.
    destruct (decide (c0 = name)) as [->|Hne].
    + result_inv E. injection E as <-. simpl.
      destruct (decide (is_star x = true)); simpl; lia.
    + injection E as <-. destruct (decide (is_star x = true)); simpl; lia.
Qed.

Lemma allowed_stars_zero_threshold n threshold allowed :
  is_zero_float threshold = true →
  allowed_stars n threshold = Ok allowed → allowed = 0.
Proof.
  unfold is_zero_float, allowed_stars, int_of_float. rewrite mul_spec.
  unfold SF64mul, SFmul.
  destruct (Prim2SF threshold); try done.
  destruct (Prim2SF (float_of_Z (Z.of_nat n))); intros _ [= <-]; done.
Qed.

(** X10. No row the Preprocessor returns has more cells equal to the star
    than the bound [int(num_columns * threshold)]; with a threshold of zero
    no returned row has any such cell. *)
Theorem preprocess_data_stars_bounded L df threshold out :
  preprocess_data L df threshold = Ok out →
  ∃ allowed,
    allowed_stars (length (columns df)) threshold = Ok allowed ∧
    Forall (λ r', count_stars r' ≤ allowed) (rows out) ∧
    (is_zero_float threshold = true →
     Forall (λ r', Forall (λ c, is_star c = false) r') (rows out)).
Proof.
  intros H. apply preprocess_data_Ok in H as (allowed & Hallowed & _ & Hrows & _).
  exists allowed. split; [done|].
  assert (Forall (λ r', count_stars r' ≤ allowed) (rows out)) as Hbound.
  { apply Forall_forall. intros r' Hr'.
    apply list_elem_of_lookup in Hr' as [k Hk].
    destruct (Forall2_lookup_r _ _ _ _ _ Hrows Hk) as (r & Hr & H3).
    apply list_elem_of_lookup_2, list_elem_of_filter in Hr as [Hkeep _].
    unfold keeps in Hkeep. apply Z.leb_le in Hkeep.
    unfold coerce_three in H3. result_inv H3. result_inv H3.
    apply coerce_row_stars in E, E0, H3. lia. }
  split; [done|]. intros Hzero.
  rewrite (allowed_stars_zero_threshold _ _ _ Hzero Hallowed) in Hbound.
  eapply Forall_impl; [exact Hbound|]. intros r' Hr'. simpl in Hr'.
  unfold count_stars in Hr'. apply Forall_forall. intros c Hc.
  destruct (is_star c) eqn:Hstar; [|done].
  assert (c ∈ filter (λ c, is_star c = true) r') as Hin
    by (by apply list_elem_of_filter).
  destruct (filter _ r'); [by apply elem_of_nil in Hin|simpl in Hr'; lia].
Qed.

Lemma preprocess_data_stars_bounded_witness :
  ∃ allowed,
    allowed_stars (length (columns eighteen_columns)) default_threshold
      = Ok allowed ∧
    Forall (λ r', count_stars r' ≤ allowed) (rows preprocessed_2019) ∧
    (is_zero_float default_threshold = true →
     Forall (λ r', Forall (λ c, is_star c = false) r') (rows preprocessed_2019)).
Proof.
  apply (preprocess_data_stars_bounded reference_libraries eighteen_columns
           default_threshold preprocessed_2019).
  vm_compute. reflexivity.
Defined.

(** ** Persister and script: the database only grows *)

Lemma extended_by_refl d : extended_by d d.
Proof. intros name tbl Hd. by exists tbl. Qed.

Lemma to_sql_Ok df t d d' :
  to_sql df t d = Ok d' →
  match d !! sql_fold t with
  | None => d' = <[sql_fold t := df]> d
  | Some tbl =>
      d' = <[sql_fold t :=
              {| columns := columns tbl;
                 rows := rows tbl ++
                   (align_row (columns df) (columns tbl) <$> rows df) |}]> d
  end.
Proof.
  unfold to_sql. destruct (_ || _); [done|].
  destruct (d !! sql_fold t) as [tbl|].
  - destruct (forallb _ _); [|done]. by intros [= <-].
  - by intros [= <-].
Qed.

Lemma to_sql_extends df t d d' : to_sql df t d = Ok d' → extended_by d d'.
Proof.
  intros H%to_sql_Ok name tbl Hname.
  destruct (decide (name = sql_fold t)) as [->|Hne].
  - rewrite Hname in H. subst d'. eexists. rewrite lookup_insert_eq.
    split; [done|]. simpl. split; [done|]. by apply prefix_app_r.
  - exists tbl. split; [|done].
    destruct (d !! sql_fold t); subst d'; by rewrite lookup_insert_ne.
Qed.

(** X11. The Persister only appends. When it returns, every table that
    existed is still there under the same columns with its old rows first,
    other tables are untouched, and the destination holds exactly
    [len(df)] more rows (all of [df] when it had to be created); when it
    raises, the database is as it was. Files are never touched. *)
Theorem save_to_database_appends df engine table_name w r w' :
  save_to_database df engine table_name w = (r, w') →
  fs w' = fs w ∧
  (∀ e, r = Raise e → db w' = db w) ∧
  (r = Ok tt →
     extended_by (db w) (db w') ∧
     (∀ name, name ≠ sql_fold table_name → db w' !! name = db w !! name) ∧
     ∃ tbl', db w' !! sql_fold table_name = Some tbl' ∧
       length (rows tbl') =
         (from_option (λ tbl, length (rows tbl)) 0 (db w !! sql_fold table_name)
          + length (rows df))%nat).
Proof.
  unfold save_to_database, bind, log, get_db, lift, put_db. simpl.
  destruct (to_sql df table_name (db w)) as [d'|e] eqn:Hsql; intros [= <- <-];
    simpl; (split; [done|]); (split; [by intros e' [=]|]); [|done].
  intros _. split; [by eapply to_sql_extends|].
  apply to_sql_Ok in Hsql.
  destruct (db w !! sql_fold table_name) as [tbl|] eqn:Hd; subst d'; simpl.
  - split; [intros name Hne; by rewrite lookup_insert_ne|].
    eexists. rewrite lookup_insert_eq. split; [done|]. simpl.
    by rewrite length_app, length_fmap.
  - split; [intros name Hne; by rewrite lookup_insert_ne|].
    exists df. by rewrite lookup_insert_eq.
Qed.

Lemma save_to_database_appends_witness :
  fs (save_to_database preprocessed_2019 engine_url destination world_2019).2
    = fs world_2019 ∧
  (∀ e, (save_to_database preprocessed_2019 engine_url destination world_2019).1
          = Raise e →
        db (save_to_database preprocessed_2019 engine_url destination world_2019).2
          = db world_2019) ∧
  ((save_to_database preprocessed_2019 engine_url destination world_2019).1 = Ok tt →
     extended_by (db world_2019)
       (db (save_to_database preprocessed_2019 engine_url destination world_2019).2) ∧
     (∀ name, name ≠ sql_fold destination →
        db (save_to_database preprocessed_2019 engine_url destination world_2019).2
          !! name = db world_2019 !! name) ∧
     ∃ tbl',
       db (save_to_database preprocessed_2019 engine_url destination world_2019).2
         !! sql_fold destination = Some tbl' ∧
       length (rows tbl') =
         (from_option (λ tbl, length (rows tbl)) 0
            (db world_2019 !! sql_fold destination)
          + length (rows preprocessed_2019))%nat).
Proof.
  apply (save_to_database_appends preprocessed_2019 engine_url destination
           world_2019).
  by destruct (save_to_database _ _ _ _).
Defined.

Lemma parse_arguments_Raise sys_argv w e w' :
  parse_arguments sys_argv w = (Raise e, w') →
  e = SystemExit 2 ∧ fs w' = fs w ∧ db w' = db w ∧
  ∃ msg, trace w' = trace w ++ [Print msg].
Proof.
  unfold parse_arguments.
  destruct (getopt _ _ _) as [err|[arguments values]]; [|done].
  unfold bind, print, log, raise. simpl. intros [= <- <-]. simpl. eauto.
Qed.

(** X12. Whatever the command line, the files and the database, a run
    never touches the files, never removes or alters a table or a row that
    was in the database (it can only add rows after them), and leaves the
    database exactly as it was unless the Persister was called. *)
Theorem run_database_only_grows L sys_argv files database st w :
  run L sys_argv files database = (st, w) →
  fs w = files ∧
  extended_by database (db w) ∧
  ((∀ t df, ToSql t df ∉ trace w) → db w = database).
Proof.
  unfold run. fold (initial files database).
  destruct (main L sys_argv (initial files database)) as [r w0] eqn:Hmain.
  intros [= _ <-]. revert Hmain.
  destruct (parse_arguments sys_argv (initial files database))
    as [[file_path|e] wp] eqn:Hparse.
  2: { unfold main, bind at 1. rewrite Hparse. intros [= <- <-].
       apply parse_arguments_Raise in Hparse as (_ & -> & -> & _).
       split_and!; [done|apply extended_by_refl|done]. }
  assert ((parse_arguments sys_argv (initial files database)).1 = Ok file_path)
    as Hpath by (by rewrite Hparse).
  destruct (decide (file_path = "")) as [->|Hne].
  { rewrite (main_without_path _ _ _ Hpath), validate_data_run. simpl.
    destruct (sqlite_execute _ _ _); intros [= <- <-];
      (split_and!; [done|apply extended_by_refl|done]). }
  rewrite (main_with_path _ _ _ _ Hpath Hne). cbv zeta.
  rewrite !data_already_exists_run. simpl.
  destruct (files !! file_path) as [df|]; simpl.
  2: { intros [= <- <-]. split_and!; [done|apply extended_by_refl|done]. }
  assert (∀ out d' (w' : World) (tr : list event),
            to_sql out destination database = Ok d' →
            fs w' = files → db w' = d' →
            ToSql destination out ∈ trace w' →
            fs w' = files ∧ extended_by database (db w') ∧
            ((∀ t df, ToSql t df ∉ trace w') → db w' = database)) as Hadd.
  { intros out d' w' _ Hsql Hfs Hdb Hin. split_and!; [done| |].
    - rewrite Hdb. by eapply to_sql_extends.
    - intros Hnone. by destruct (Hnone _ _ Hin). }
  destruct (sqlite_execute L database _) as [[|row result]|e] eqn:Hq; simpl.
  - destruct (preprocess_data L df default_threshold) as [out|e]; simpl.
    2: { intros [= <- <-]. split_and!; [done|apply extended_by_refl|done]. }
    destruct (to_sql out destination database) as [d'|e] eqn:Hsql; simpl.
    2: { intros [= <- <-]. split_and!; [done|apply extended_by_refl|done]. }
    rewrite validate_data_run. simpl.
    destruct (sqlite_execute L d' _); intros [= <- <-];
      (apply (Hadd out d' _ [] Hsql); [done|done|]); simpl;
      repeat first [ apply list_elem_of_here | apply list_elem_of_further ].
  - rewrite validate_data_run. simpl.
    destruct (sqlite_execute L database (report_query destination));
      intros [= <- <-]; (split_and!; [done|apply extended_by_refl|done]).
  - destruct e; simpl;
      try (intros [= <- <-]; split_and!; [done|apply extended_by_refl|done]).
    destruct (preprocess_data L df default_threshold) as [out|e]; simpl.
    2: { intros [= <- <-]. split_and!; [done|apply extended_by_refl|done]. }
    destruct (to_sql out destination database) as [d'|e] eqn:Hsql; simpl.
    2: { intros [= <- <-]. split_and!; [done|apply extended_by_refl|done]. }
    rewrite validate_data_run. simpl.
    destruct (sqlite_execute L d' _); intros [= <- <-];
      (apply (Hadd out d' _ [] Hsql); [done|done|]); simpl;
      repeat first [ apply list_elem_of_here | apply list_elem_of_further ].
Qed.

Lemma run_database_only_grows_witness :
  fs (run reference_libraries load_2019 (fs world_2019) (db world_2019)).2
    = fs world_2019 ∧
  extended_by (db world_2019)
    (db (run reference_libraries load_2019 (fs world_2019) (db world_2019)).2) ∧
  ((∀ t df,
      ToSql t df ∉
        trace (run reference_libraries load_2019 (fs world_2019) (db world_2019)).2) →
   db (run reference_libraries load_2019 (fs world_2019) (db world_2019)).2
     = db world_2019).
Proof.
  apply (run_database_only_grows reference_libraries load_2019
           (fs world_2019) (db world_2019)
           (run reference_libraries load_2019 (fs world_2019) (db world_2019)).1).
  by destruct (run _ _ _ _).
Defined.

(** ** Script: runs that stop early *)

(** X13. When the file cannot be read, the run ends with status 1 right
    after the attempt: no statement has reached the database, nothing is
    reported, and the database is as it was. *)
Theorem run_unreadable_file L sys_argv files database file_path :
  (parse_arguments sys_argv (initial files database)).1 = Ok file_path →
  file_path ≠ "" →
  files !! file_path = None →
  run L sys_argv files database
  = (1, {| fs := files; db := database;
           trace := prelude ++ [Print ("File Path: " +:+ file_path);
                                ReadCsv file_path] |}).
Proof.
  intros Hparse Hpath Hfile. unfold run. fold (initial files database).
  rewrite (main_with_path _ _ _ _ Hparse Hpath). cbv zeta. simpl.
  by rewrite Hfile.
Qed.

Lemma run_unreadable_file_witness :
  run reference_libraries ["pipweline.py"; "-f"; "missing_2020.csv"]
    (fs world_2019) (db world_2019)
  = (1, {| fs := fs world_2019; db := db world_2019;
           trace := prelude ++ [Print ("File Path: " +:+ "missing_2020.csv");
                                ReadCsv "missing_2020.csv"] |}).
Proof.
  apply (run_unreadable_file reference_libraries
           ["pipweline.py"; "-f"; "missing_2020.csv"]
           (fs world_2019) (db world_2019) "missing_2020.csv").
  - reflexivity.
  - discriminate.
  - reflexivity.
Defined.

(** X14. When the year is reported absent and the Preprocessor raises,
    the exception ends the run: the Persister is not called, the report is
    not printed, and the database is as it was. *)
Theorem run_failed_preprocessing L sys_argv files database file_path df e :
  (parse_arguments sys_argv (initial files database)).1 = Ok file_path →
  file_path ≠ "" →
  files !! file_path = Some df →
  (data_already_exists L engine_url destination
     (extract_year_from_path file_path) (initial files database)).1 = Ok false →
  preprocess_data L df default_threshold = Raise e →
  run L sys_argv files database
  = (exit_status (Raise e),
     {| fs := files; db := database;
        trace := prelude ++
          [Print ("File Path: " +:+ file_path);
           ReadCsv file_path;
           Print "[INFO]: Load data as a pandas dataframe";
           Execute (existence_query destination
                      (extract_year_from_path file_path))] |}).
Proof.
  intros Hparse Hpath Hfile Hexists Hpre. unfold run.
  fold (initial files database).
  rewrite (main_with_path _ _ _ _ Hparse Hpath). cbv zeta. simpl.
  rewrite Hfile. rewrite data_already_exists_run in *. simpl in *.
  destruct (sqlite_execute L database _) as [[|row result]|[]]; try done;
    by rewrite Hpre.
Qed.

Lemma run_failed_preprocessing_witness :
  run reference_libraries ["pipweline.py"; "-f"; "data/bad_2020.csv"]
    {[ "data/bad_2020.csv" := no_residence_columns ]} (db world_2019)
  = (exit_status (Raise (KeyError "COMUNA_RESIDENCIA")),
     {| fs := {[ "data/bad_2020.csv" := no_residence_columns ]};
        db := db world_2019;
        trace := prelude ++
          [Print ("File Path: " +:+ "data/bad_2020.csv");
           ReadCsv "data/bad_2020.csv";
           Print "[INFO]: Load data as a pandas dataframe";
           Execute (existence_query destination
                      (extract_year_from_path "data/bad_2020.csv"))] |}).
Proof.
  apply (run_failed_preprocessing reference_libraries
           ["pipweline.py"; "-f"; "data/bad_2020.csv"]
           {[ "data/bad_2020.csv" := no_residence_columns ]} (db world_2019)
           "data/bad_2020.csv" no_residence_columns
           (KeyError "COMUNA_RESIDENCIA")).
  - reflexivity.
  - discriminate.
  - reflexivity.
  - reflexivity.
  - reflexivity.
Defined.

(** ** Script: a first load, end to end *)



(** ** Existence Checker and Validator on a table of integer years *)

Lemma mapM_year_of_int_valued j tbl ks :
  mapM (year_of j) (rows tbl) = Some ks → int_valued j tbl = true.
Proof.
  unfold int_valued. revert ks.
  induction (rows tbl) as [|r rs IH]; intros ks; simpl; [done|].
  destruct (year_of j r) as [z|] eqn:Hz; simpl; [|done].
  destruct (mapM (year_of j) rs) as [ks'|] eqn:Hks; simpl; [|done].
  intros _. by apply (IH ks').
Qed.

Lemma filter_year_nil j rs ks n :
  mapM (year_of j) rs = Some ks →
  filter (λ r, year_of j r = Some n) rs = [] ↔ n ∉ ks.
Proof.
  revert ks. induction rs as [|r rs IH]; intros ks; simpl.
  - intros [= <-]. split; [intros _; apply not_elem_of_nil|done].
  - destruct (year_of j r) as [z|] eqn:Hz; simpl; [|done].
    destruct (mapM (year_of j) rs) as [ks'|] eqn:Hks; simpl; [|done].
    intros [= <-]. rewrite filter_cons, Hz, not_elem_of_cons.
    destruct (decide (Some z = Some n)) as [[= ->]|Hne].
    + split; [done|]. by intros [? _].
    + rewrite (IH ks' eq_refl). split; [|by intros [_ ?]].
      intros Hn. split; [|done]. intros ->. by apply Hne.
Qed.

Lemma mapM_year_of_elem_of j rs ks n :
  mapM (year_of j) rs = Some ks →
  n ∈ ks ↔ ∃ r, r ∈ rs ∧ year_of j r = Some n.
Proof.
  revert ks. induction rs as [|r rs IH]; intros ks; simpl.
  - intros [= <-]. split; [by intros ?%elem_of_nil|].
    by intros (r & ?%elem_of_nil & _).
  - destruct (year_of j r) as [z|] eqn:Hz; simpl; [|done].
    destruct (mapM (year_of j) rs) as [ks'|] eqn:Hks; simpl; [|done].
    intros [= <-]. rewrite elem_of_cons, (IH ks' eq_refl). split.
    + intros [->|(r' & Hr' & Hn)].
      * exists r. split; [left|done].
      * exists r'. split; [by right|done].
    + intros (r' & [->|Hr']%elem_of_cons & Hn).
      * left. congruence.
      * right. eauto.
Qed.

Lemma data_already_exists_on_integer_years L engine table_name year w tbl j ks n :
  plain_name table_name = true →
  db w !! sql_fold table_name = Some tbl →
  find_column "ANO_EGRESO" (columns tbl) = Some j →
  mapM (year_of j) (rows tbl) = Some ks →
  classify_operand year = OpInteger n →
  data_already_exists L engine table_name year w
  = (Ok (bool_decide (n ∈ ks)),
     logged w [Execute (existence_query table_name year)]).
Proof.
  intros Ht Hd Hj Hks Hyear. rewrite data_already_exists_run.
  rewrite sqlite_execute_existence by done. rewrite Hyear, Hd.
  unfold select_where_year.
  rewrite Hj, (mapM_year_of_int_valued _ _ _ Hks).
  pose proof (filter_year_nil j (rows tbl) ks n Hks) as Hnil.
  destruct (filter _ (rows tbl)) as [|row result].
  - rewrite bool_decide_eq_false_2; [done|]. by apply Hnil.
  - rewrite bool_decide_eq_true_2; [done|].
    destruct (decide (n ∈ ks)) as [|Hno]; [done|]. by apply Hnil in Hno.
Qed.

(** X16. On a table whose year column holds integers, and for a year text
    that is a decimal literal of at most 18 digits, the Existence Checker
    returns true exactly when some row of the table carries that number as
    its year; it changes neither the files nor the database. *)
Theorem data_already_exists_numeric_year L engine table_name year w tbl j ks n :
  plain_name table_name = true →
  db w !! sql_fold table_name = Some tbl →
  find_column "ANO_EGRESO" (columns tbl) = Some j →
  mapM (year_of j) (rows tbl) = Some ks →
  classify_operand year = OpInteger n →
  data_already_exists L engine table_name year w
  = (Ok (bool_decide (n ∈ ks)),
     logged w [Execute (existence_query table_name year)]) ∧
  ((data_already_exists L engine table_name year w).1 = Ok true ↔
   ∃ r, r ∈ rows tbl ∧ year_of j r = Some n).
Proof.
  intros Ht Hd Hj Hks Hyear.
  rewrite (data_already_exists_on_integer_years _ _ _ _ _ _ _ _ _
             Ht Hd Hj Hks Hyear).
  split; [done|]. simpl. rewrite <- (mapM_year_of_elem_of j (rows tbl) ks n Hks).
  split.
  - intros [= H]. by apply bool_decide_eq_true in H.
  - intros H. by rewrite bool_decide_eq_true_2.
Qed.

Lemma data_already_exists_numeric_year_witness :
  data_already_exists reference_libraries engine_url destination "2019" world_2019
  = (Ok (bool_decide (2019 ∈ [2019])),
     logged world_2019 [Execute (existence_query destination "2019")]) ∧
  ((data_already_exists reference_libraries engine_url destination "2019"
      world_2019).1 = Ok true ↔
   ∃ r, r ∈ rows table_2019 ∧ year_of 11 r = Some 2019).
Proof.
  apply (data_already_exists_numeric_year reference_libraries engine_url
           destination "2019" world_2019 table_2019 11%nat [2019] 2019);
    reflexivity.
Defined.

Lemma sum_list_perm (l k : list nat) : l ≡ₚ k → sum_list l = sum_list k.
Proof. induction 1; simpl; lia. Qed.

Lemma bump_sum k acc : sum_list (bump k acc).*2 = S (sum_list acc.*2).
Proof.
  induction acc as [|[k' c] acc IH]; [done|]. cbn [bump].
  case_decide; rewrite !fmap_cons; cbn [sum_list snd]; unfold id; [lia|].
  transitivity (c + S (sum_list acc.*2))%nat;
    [f_equal; exact IH|by rewrite Nat.add_succ_r].
Qed.

Lemma count_groups_sum ks : sum_list (count_groups ks).*2 = length ks.
Proof.
  unfold count_groups. induction ks as [|k ks IH] using rev_ind; [done|].
  rewrite foldl_snoc, bump_sum, IH, length_app. simpl. lia.
Qed.

Lemma bump_elem_of_keys y k acc : y ∈ (bump k acc).*1 ↔ y = k ∨ y ∈ acc.*1.
Proof.
  induction acc as [|[k' c] acc IH]; simpl.
  - rewrite list_elem_of_singleton. split; [by left|].
    intros [?|?%elem_of_nil]; done.
  - case_decide as Hk; simpl; rewrite !elem_of_cons.
    + subst k'. tauto.
    + rewrite IH. tauto.
Qed.

Lemma count_groups_keys y ks : y ∈ (count_groups ks).*1 ↔ y ∈ ks.
Proof.
  unfold count_groups. induction ks as [|k ks IH] using rev_ind.
  - done.
  - rewrite foldl_snoc, bump_elem_of_keys, IH, elem_of_app.
    rewrite list_elem_of_singleton. tauto.
Qed.

Lemma count_groups_length ks : length (count_groups ks) = length (remove_dups ks).
Proof.
  rewrite <- (length_fmap fst). apply Permutation_length.
  apply NoDup_Permutation.
  - apply count_groups_invariant.
  - apply NoDup_remove_dups.
  - intros y. by rewrite count_groups_keys, elem_of_remove_dups.
Qed.

(** X17. On a table whose year column holds integers the Validator leaves
    the world as it was but for its output, and prints the first 100 of
    the groups: there is one group per distinct year of the table, and
    the counts of the groups add up to the number of rows of the table. *)
Theorem validate_data_counts_add_up L engine table_name w tbl j ks :
  plain_name table_name = true →
  db w !! sql_fold table_name = Some tbl →
  find_column "ANO_EGRESO" (columns tbl) = Some j →
  mapM (year_of j) (rows tbl) = Some ks →
  ∃ groups : list (Z * nat),
    validate_data L engine table_name w
    = (Ok tt, logged w (Execute (report_query table_name)
                        :: (PrintRow <$> take 100 (group_row <$> groups)))) ∧
    length groups = length (remove_dups ks) ∧
    sum_list groups.*2 = length (rows tbl).
Proof.
  intros Ht Hd Hj Hks. exists (group_order L (count_groups ks)).
  pose proof (group_order_perm L (count_groups ks)) as Hperm.
  split_and!.
  - rewrite validate_data_run, sqlite_execute_report, Hd by done.
    by rewrite (count_by_year_Ok _ _ _ _ _ _ Hj Hks).
  - by rewrite Hperm, count_groups_length.
  - rewrite (sum_list_perm _ (count_groups ks).*2) by (by rewrite Hperm).
    rewrite count_groups_sum. symmetry. by eapply length_mapM.
Qed.

Lemma validate_data_counts_add_up_witness :
  ∃ groups : list (Z * nat),
    validate_data reference_libraries engine_url destination world_2019
    = (Ok tt, logged world_2019
                (Execute (report_query destination)
                 :: (PrintRow <$> take 100 (group_row <$> groups)))) ∧
    length groups = length (remove_dups [2019]) ∧
    sum_list groups.*2 = length (rows table_2019).
Proof.
  apply (validate_data_counts_add_up reference_libraries engine_url destination
           world_2019 table_2019 11%nat [2019]); reflexivity.
Defined.

(** ** Script: what decides an append *)



(** X19. Only the year in the file name decides an append. On a table
    whose year column holds integers and for a file name whose year is a
    decimal literal, a run whose preprocessing and append succeed appends
    the preprocessed rows exactly when no row of the table carries the
    year of the file name, whatever years the rows of the file carry; when
    a row carries it, the database is left as it was. *)
Theorem run_appends_iff_name_year_absent
    L sys_argv files database file_path df tbl j ks n out d' st w :
  (parse_arguments sys_argv (initial files database)).1 = Ok file_path →
  file_path ≠ "" →
  files !! file_path = Some df →
  database !! sql_fold destination = Some tbl →
  find_column "ANO_EGRESO" (columns tbl) = Some j →
  mapM (year_of j) (rows tbl) = Some ks →
  classify_operand (extract_year_from_path file_path) = OpInteger n →
  preprocess_data L df default_threshold = Ok out →
  to_sql out destination database = Ok d' →
  run L sys_argv files database = (st, w) →
  (n ∉ ks → ToSql destination out ∈ trace w ∧ db w = d' ∧
            db w !! sql_fold destination
            = Some {| columns := columns tbl;
                      rows := rows tbl ++
                        (align_row (columns out) (columns tbl) <$> rows out) |}) ∧
  (n ∈ ks → (∀ t df', ToSql t df' ∉ trace w) ∧ db w = database).
Proof.
  intros Hparse Hpath Hfile Hd Hj Hks Hyear Hpre Hsql. unfold run.
  fold (initial files database).
  rewrite (main_with_path _ _ _ _ Hparse Hpath). cbv zeta. simpl.
  rewrite Hfile.
  rewrite (data_already_exists_on_integer_years L _ destination _ _ tbl j ks n);
    [|reflexivity|exact Hd|exact Hj|exact Hks|exact Hyear].
  simpl. destruct (decide (n ∈ ks)) as [Hin|Hout].
  - rewrite (bool_decide_eq_true_2 _ Hin), validate_data_run. simpl.
    destruct (sqlite_execute _ _ _); intros [= <- <-]; simpl;
      (split; [done|]); intros _; (split; [|done]);
      intros t df' Hev; absent_from_trace Hev.
  - rewrite (bool_decide_eq_false_2 _ Hout), Hpre, Hsql, validate_data_run.
    simpl. pose proof (to_sql_Ok _ _ _ _ Hsql) as Hd'. rewrite Hd in Hd'.
    destruct (sqlite_execute _ _ _); intros [= <- <-]; simpl;
      (split; [|done]); intros _;
      (split_and!; [|done|by rewrite Hd', lookup_insert_eq]);
      repeat first [ apply list_elem_of_here | apply list_elem_of_further ].
Qed.

Lemma run_appends_iff_name_year_absent_witness :
  (2020 ∉ [2019] →
   ToSql destination preprocessed_2019 ∈
     trace (run reference_libraries ["pipweline.py"; "-f"; "copy_2020.csv"]
              {[ "copy_2020.csv" := eighteen_columns ]} (db world_2019)).2 ∧
   db (run reference_libraries ["pipweline.py"; "-f"; "copy_2020.csv"]
         {[ "copy_2020.csv" := eighteen_columns ]} (db world_2019)).2
     = <[sql_fold destination :=
          {| columns := columns table_2019;
             rows := rows table_2019 ++
               (align_row (columns preprocessed_2019) (columns table_2019)
                  <$> rows preprocessed_2019) |}]> (db world_2019) ∧
   db (run reference_libraries ["pipweline.py"; "-f"; "copy_2020.csv"]
         {[ "copy_2020.csv" := eighteen_columns ]} (db world_2019)).2
     !! sql_fold destination
   = Some {| columns := columns table_2019;
             rows := rows table_2019 ++
               (align_row (columns preprocessed_2019) (columns table_2019)
                  <$> rows preprocessed_2019) |}) ∧
  (2020 ∈ [2019] →
   (∀ t df',
      ToSql t df' ∉
        trace (run reference_libraries ["pipweline.py"; "-f"; "copy_2020.csv"]
                 {[ "copy_2020.csv" := eighteen_columns ]} (db world_2019)).2) ∧
   db (run reference_libraries ["pipweline.py"; "-f"; "copy_2020.csv"]
         {[ "copy_2020.csv" := eighteen_columns ]} (db world_2019)).2
     = db world_2019).
Proof.
  apply (run_appends_iff_name_year_absent reference_libraries
           ["pipweline.py"; "-f"; "copy_2020.csv"]
           {[ "copy_2020.csv" := eighteen_columns ]} (db world_2019)
           "copy_2020.csv" eighteen_columns table_2019 11%nat [2019] 2020
           preprocessed_2019
           (<[sql_fold destination :=
               {| columns := columns table_2019;
                  rows := rows table_2019 ++
                    (align_row (columns preprocessed_2019) (columns table_2019)
                       <$> rows preprocessed_2019) |}]> (db world_2019))
           (run reference_libraries ["pipweline.py"; "-f"; "copy_2020.csv"]
              {[ "copy_2020.csv" := eighteen_columns ]} (db world_2019)).1).
  - reflexivity.
  - discriminate.
  - reflexivity.
  - reflexivity.
  - reflexivity.
  - reflexivity.
  - reflexivity.
  - vm_compute. reflexivity.
  - reflexivity.
  - by destruct (run _ _ _ _).
Defined.

(** X20. Append, then check. After the Persister has stored a frame, the
    Existence Checker returns true for every year carried by one of the
    stored rows, whether the table was created by this call or already
    existed (the table's year column holding integers). *)
Theorem save_to_database_then_exists
    L df engine table_name w w' year n j r tbl' j' ks' :
  save_to_database df engine table_name w = (Ok tt, w') →
  plain_name table_name = true →
  find_column "ANO_EGRESO" (columns df) = Some j →
  r ∈ rows df →
  year_of j r = Some n →
  classify_operand year = OpInteger n →
  db w' !! sql_fold table_name = Some tbl' →
  find_column "ANO_EGRESO" (columns tbl') = Some j' →
  mapM (year_of j') (rows tbl') = Some ks' →
  (data_already_exists L engine table_name year w').1 = Ok true.
Proof.
  intros Hsave Ht Hj Hr Hn Hyear Hd' Hj' Hks'.
  assert (to_sql df table_name (db w) = Ok (db w')) as Hsql.
  { revert Hsave. unfold save_to_database, bind, log, get_db, lift, put_db.
    simpl. destruct (to_sql df table_name (db w)); [|done].
    by intros [= <-]. }
  destruct (to_sql_year _ _ _ _ _ _ _ _ _ Hsql Hj Hr Hn Hd' Hj')
    as (r1 & Hr1 & Hn1).
  rewrite (data_already_exists_on_integer_years _ _ _ _ _ _ _ _ _
             Ht Hd' Hj' Hks' Hyear).
  simpl. f_equal. apply bool_decide_eq_true.
  apply (mapM_year_of_elem_of j' (rows tbl') ks' n Hks'). eauto.
Qed.

Lemma save_to_database_then_exists_witness :
  (data_already_exists reference_libraries engine_url destination "2019"
     (save_to_database preprocessed_2019 engine_url destination
        (initial ∅ ∅)).2).1 = Ok true.
Proof.
  apply (save_to_database_then_exists reference_libraries preprocessed_2019
           engine_url destination (initial ∅ ∅)
           (save_to_database preprocessed_2019 engine_url destination
              (initial ∅ ∅)).2
           "2019" 2019 11%nat (default [] (rows preprocessed_2019 !! 0%nat))
           preprocessed_2019 11%nat [2019]).
  - reflexivity.
  - reflexivity.
  - reflexivity.
  - apply list_elem_of_here.
  - reflexivity.
  - reflexivity.
  - reflexivity.
  - reflexivity.
  - reflexivity.
Defined.
